(** * telegram-afk-bot: the AFK presence engine

    A shallow embedding of [app/utils.py] (the duration formatter),
    [app/state.py] (the persisted [BotState] record with [save_state] and
    [load_state]) and [app/main.py] (the three Telethon event handlers),
    followed by the properties of the engine.

    Conventions.
    - Python [int] is [Z]; [divmod] and [//] are floor division, that is
      [Z.div_eucl], [Z.div] and [Z.modulo] for a positive divisor.
    - Python [str] is [string]; each character stands for a code point
      below 256.
    - A Python [dict] with string keys is a [gmap string _].
    - Code that raises, logs, writes the state file or sends a message is a
      computation over an explicit [world] (see [M] below). *)

From Stdlib Require Import ZArith String Ascii List Lia Floats.
From stdpp Require Import base option gmap strings list fin_maps pretty.

Local Open Scope string_scope.
Local Open Scope list_scope.
Local Open Scope stdpp_scope.
Local Open Scope Z_scope.

(** ** Text *)

(** [" ".join(parts)] *)
Definition join (sep : string) (parts : list string) : string :=
  String.concat sep parts.

(** [str(n)] and [f"{n}"] for an [int]. *)
Definition str_int (n : Z) : string := pretty n.

(** [c.isspace()] on the code points below 256: tab, line feed, vertical
    tab, form feed, carriage return, the four separators 28..31, space,
    next-line (133) and no-break space (160). *)
Definition isspace (c : ascii) : bool :=
  let n := Z.of_nat (nat_of_ascii c) in
  ((9 <=? n) && (n <=? 13)) || ((28 <=? n) && (n <=? 32))
  || (n =? 133) || (n =? 160).

Fixpoint lstrip (s : string) : string :=
  match s with
  | String c s' => if isspace c then lstrip s' else s
  | EmptyString => EmptyString
  end.

Fixpoint rstrip (s : string) : string :=
  match s with
  | String c s' =>
      match rstrip s' with
      | EmptyString => if isspace c then EmptyString else String c EmptyString
      | r => String c r
      end
  | EmptyString => EmptyString
  end.

(** [s.strip()] *)
Definition strip (s : string) : string := rstrip (lstrip s).

(** The line feed that the handlers write as a backslash followed by n. *)
Definition newline : string := String (ascii_of_nat 10) EmptyString.

(** Truthiness of a [str] and of a [list]: [if s:], [not parts]. *)
Definition nonempty (s : string) : bool :=
  match s with EmptyString => false | _ => true end.

Definition truthy {A} (l : list A) : bool :=
  match l with [] => false | _ => true end.

(** ** [datetime.timedelta] *)

(** A [timedelta] in CPython's normalised representation: any number of
    days, [0 <= seconds < 86400] and [0 <= microseconds < 1000000]. *)
Record timedelta := mk_timedelta {
  td_days : Z;
  td_seconds : Z;
  td_microseconds : Z
}.

Definition timedelta_normal (td : timedelta) : Prop :=
  0 <= td_seconds td < 86400 /\ 0 <= td_microseconds td < 1000000.

(** The constructor [timedelta(days, seconds, microseconds)] on integer
    arguments: carries are propagated so that the result is normalised. *)
Definition timedelta_new (days seconds microseconds : Z) : timedelta :=
  let '(carry_s, us) := Z.div_eucl microseconds 1000000 in
  let '(carry_d, s) := Z.div_eucl (seconds + carry_s) 86400 in
  mk_timedelta (days + carry_d) s us.

Definition total_microseconds (td : timedelta) : Z :=
  (td_days td * 86400 + td_seconds td) * 1000000 + td_microseconds td.

Definition timedelta_of_microseconds (us : Z) : timedelta :=
  timedelta_new 0 0 us.

(** [-td], [a + b] and [a - b]. *)
Definition timedelta_neg (td : timedelta) : timedelta :=
  timedelta_new (- td_days td) (- td_seconds td) (- td_microseconds td).

Definition timedelta_add (a b : timedelta) : timedelta :=
  timedelta_new (td_days a + td_days b) (td_seconds a + td_seconds b)
    (td_microseconds a + td_microseconds b).

Definition timedelta_sub (a b : timedelta) : timedelta :=
  timedelta_new (td_days a - td_days b) (td_seconds a - td_seconds b)
    (td_microseconds a - td_microseconds b).

(** *** [td.total_seconds()]

    [total_seconds] divides the number of microseconds by [10**6], two
    [int]s, and the quotient of two [int]s is a [float]: the binary64
    number nearest to the exact quotient, a tie going to the even
    significand. A float is given here by a signed significand and an
    exponent, [(m, e)] for [m * 2^e]. *)

(** [n / d] for [int]s [n] and [0 < d]: for [n <> 0] the significand has
    53 bits, [2^52 <= |m| <= 2^53]. (Quotients below [2^-1022] or beyond
    the largest float, which no [timedelta] divided by [10**6] gives, are
    outside this definition.) *)
Definition true_divide (n d : Z) : Z * Z :=
  if n =? 0 then (0, 0) else
  let e0 := Z.log2 (Z.abs n) - Z.log2 d - 52 in
  let scaled e := (Z.abs n * 2 ^ Z.max 0 (- e), d * 2 ^ Z.max 0 e) in
  let e := if 2 ^ 52 * snd (scaled e0) <=? fst (scaled e0) then e0 else e0 - 1 in
  let '(a, b) := scaled e in
  let q := a / b in
  let r := a mod b in
  let m := if 2 * r <? b then q
           else if b <? 2 * r then q + 1
           else if Z.even q then q else q + 1 in
  (Z.sgn n * m, e).

(** [int(x)] for a float [x]: truncation toward zero. *)
Definition int_of_float (x : Z * Z) : Z :=
  let '(m, e) := x in
  if 0 <=? e then m * 2 ^ e else Z.quot m (2 ^ (- e)).

Definition total_seconds (td : timedelta) : Z * Z :=
  true_divide (total_microseconds td) 1000000.

(** [int(td.total_seconds())] *)
Definition int_total_seconds (td : timedelta) : Z :=
  int_of_float (total_seconds td).

(** ** [app/utils.py]: [format_duration] *)

Definition divmod (a b : Z) : Z * Z := Z.div_eucl a b.

Definition format_duration (td : timedelta) : string :=
  let total_seconds := int_total_seconds td in
  let '(days, remainder) := divmod total_seconds 86400 in
  let '(hours, remainder) := divmod remainder 3600 in
  let '(minutes, _) := divmod remainder 60 in
  let parts : list string := [] in
  let parts := if 0 <? days then parts ++ [str_int days +:+ "d"] else parts in
  let parts := if 0 <? hours then parts ++ [str_int hours +:+ "h"] else parts in
  let parts :=
    if (0 <? minutes) || negb (truthy parts)
    then parts ++ [str_int minutes +:+ "m"] else parts in
  join " " parts.

(** ** [datetime.datetime] *)

(** The calendar date and time of day that a [datetime] carries. *)
Record civil := mk_civil {
  year : Z;
  month : Z;
  day : Z;
  hour : Z;
  minute : Z;
  second : Z;
  microsecond : Z
}.

(** A [datetime]: its fields and, when it is timezone-aware, the offset
    from UTC that its [tzinfo] gives at that instant ([None] for a naive
    datetime). Two aware datetimes are the same value here when fields and
    offset agree, whichever [tzinfo] object produced the offset. *)
Record datetime := mk_datetime {
  fields : civil;
  utcoffset : option timedelta
}.

(** What [datetime.now(tz=ZoneInfo(config.timezone))] reads: the local
    time in the configured zone together with the offset of that zone. One
    event is handled at one reading: every call of [datetime.now] while it
    is handled gives the same [clock]. *)
Record clock := mk_clock {
  clock_fields : civil;
  clock_offset : timedelta
}.

Definition datetime_now (c : clock) : datetime :=
  mk_datetime (clock_fields c) (Some (clock_offset c)).

Definition is_leap (y : Z) : bool :=
  (y mod 4 =? 0) && (negb (y mod 100 =? 0) || (y mod 400 =? 0)).

Definition days_in_month (y m : Z) : Z :=
  if (m =? 2) && is_leap y then 29
  else nth (Z.to_nat m) [0; 31; 28; 31; 30; 31; 30; 31; 31; 30; 31; 30; 31] 0.

Definition days_before_year (y : Z) : Z :=
  let y := y - 1 in y * 365 + y / 4 - y / 100 + y / 400.

Definition days_before_month (y m : Z) : Z :=
  nth (Z.to_nat m) [0; 0; 31; 59; 90; 120; 151; 181; 212; 243; 273; 304; 334] 0
  + (if (2 <? m) && is_leap y then 1 else 0).

(** [dt.toordinal()] *)
Definition toordinal (c : civil) : Z :=
  days_before_year (year c) + days_before_month (year c) (month c) + day c.

(** The invariants of the [datetime] class: every object satisfies them,
    the constructor raises otherwise. *)
Definition civil_ok (c : civil) : Prop :=
  1 <= year c <= 9999 /\ 1 <= month c <= 12 /\
  1 <= day c <= days_in_month (year c) (month c) /\
  0 <= hour c < 24 /\ 0 <= minute c < 60 /\ 0 <= second c < 60 /\
  0 <= microsecond c < 1000000.

Definition offset_ok (off : timedelta) : Prop :=
  timedelta_normal off /\
  - 86400000000 < total_microseconds off < 86400000000.

Definition datetime_ok (dt : datetime) : Prop :=
  civil_ok (fields dt) /\
  match utcoffset dt with Some off => offset_ok off | None => True end.

Definition clock_ok (c : clock) : Prop :=
  civil_ok (clock_fields c) /\ offset_ok (clock_offset c).

(** *** Printing: [str(dt)] *)

Definition digit_char (d : Z) : ascii := ascii_of_nat (48 + Z.to_nat d).

(** ["%0wd" % n] for [0 <= n < 10^w], the range of every datetime field
    printed below: the [w] decimal digits of [n], most significant first. *)
Fixpoint zero_padded (w : nat) (n : Z) : string :=
  match w with
  | O => ""
  | S w' => String (digit_char ((n / 10 ^ Z.of_nat w') mod 10)) (zero_padded w' n)
  end.

(** The microseconds are printed only when there are any. *)
Definition format_fraction (us : Z) : string :=
  if us =? 0 then "" else "." +:+ zero_padded 6 us.

(** [_format_time(hh, mm, ss, us, 'auto')] *)
Definition format_time (c : civil) : string :=
  zero_padded 2 (hour c) +:+ ":" +:+ zero_padded 2 (minute c) +:+ ":"
  +:+ zero_padded 2 (second c) +:+ format_fraction (microsecond c).

(** [_format_offset(off)]: sign, hours and minutes; seconds when the
    offset has any, and microseconds after them when it has any. *)
Definition format_offset (off : option timedelta) : string :=
  match off with
  | None => ""
  | Some off =>
      let '(sign, off) :=
        if td_days off <? 0 then ("-", timedelta_neg off) else ("+", off) in
      let us := total_microseconds off in
      let '(hh, mm) := divmod us 3600000000 in
      let '(mm, ss) := divmod mm 60000000 in
      let '(ss_seconds, ss_microseconds) := divmod ss 1000000 in
      sign +:+ zero_padded 2 hh +:+ ":" +:+ zero_padded 2 mm
      +:+ (if ss =? 0 then ""
           else ":" +:+ zero_padded 2 ss_seconds +:+ format_fraction ss_microseconds)
  end.

(** [dt.isoformat(sep)] *)
Definition isoformat (sep : ascii) (dt : datetime) : string :=
  let c := fields dt in
  zero_padded 4 (year c) +:+ "-" +:+ zero_padded 2 (month c) +:+ "-"
  +:+ zero_padded 2 (day c) +:+ String sep (format_time c)
  +:+ format_offset (utcoffset dt).

(** [str(dt)] is [dt.isoformat(sep=' ')]. *)
Definition datetime_str (dt : datetime) : string := isoformat " " dt.

(** *** Subtraction: [a - b] *)

Inductive exn :=
| FileNotFoundError
| PermissionError
| IsADirectoryError
| OSError
| JSONDecodeError
| ValueError
| ValidationError
| TypeError
| RecursionError.

Inductive outcome (A : Type) :=
| Return (a : A)
| Raise (e : exn).
Arguments Return {A} a.
Arguments Raise {A} e.

(** [datetime.__sub__] on two datetimes: the difference of the fields,
    corrected by the two offsets when both are aware; mixing a naive and an
    aware datetime raises [TypeError]. (CPython returns the uncorrected
    difference at once when the two offsets are equal, which is the same
    value, and when the two datetimes share one [tzinfo] object, which in
    the engine is the case of two readings of the clock only.) *)
Definition datetime_sub (a b : datetime) : outcome timedelta :=
  let secs (c : civil) := second c + minute c * 60 + hour c * 3600 in
  let base :=
    timedelta_new (toordinal (fields a) - toordinal (fields b))
      (secs (fields a) - secs (fields b))
      (microsecond (fields a) - microsecond (fields b)) in
  match utcoffset a, utcoffset b with
  | None, None => Return base
  | Some myoff, Some otoff => Return (timedelta_sub (timedelta_add base otoff) myoff)
  | _, _ => Raise TypeError
  end.

(** *** Parsing: a reference [datetime.fromisoformat]

    [fromisoformat] is documented as the inverse of [isoformat], and how
    much more it accepts depends on the Python version. The engine below is
    therefore written against an arbitrary [fromisoformat] (see [Runtime]);
    [parse_isoformat] is the reference instance: it accepts exactly the
    strings that [isoformat] emits, with any separator character, and
    rejects field values that the [datetime] constructor would reject. *)

Definition digit_value (c : ascii) : option Z :=
  let n := Z.of_nat (nat_of_ascii c) in
  if (48 <=? n) && (n <=? 57) then Some (n - 48) else None.

(** The strings made of decimal digits only. *)
Fixpoint decimal (s : string) : bool :=
  match s with
  | EmptyString => true
  | String c s' =>
      match digit_value c with Some _ => decimal s' | None => false end
  end.

Fixpoint parse_digits (w : nat) (acc : Z) (s : string) : option (Z * string) :=
  match w with
  | O => Some (acc, s)
  | S w' =>
      match s with
      | String c s' => d ← digit_value c; parse_digits w' (acc * 10 + d) s'
      | EmptyString => None
      end
  end.

Definition expect (c : ascii) (s : string) : option string :=
  match s with
  | String c' s' => if Ascii.eqb c c' then Some s' else None
  | EmptyString => None
  end.

Definition skip_char (s : string) : option string :=
  match s with
  | String _ s' => Some s'
  | EmptyString => None
  end.

(** An optional [".ffffff"]. *)
Definition parse_fraction (s : string) : option (Z * string) :=
  match s with
  | String "." s' => parse_digits 6 0 s'
  | _ => Some (0, s)
  end.

Definition civil_okb (c : civil) : bool :=
  (1 <=? year c) && (year c <=? 9999) && (1 <=? month c) && (month c <=? 12)
  && (1 <=? day c) && (day c <=? days_in_month (year c) (month c))
  && (0 <=? hour c) && (hour c <? 24) && (0 <=? minute c) && (minute c <? 60)
  && (0 <=? second c) && (second c <? 60)
  && (0 <=? microsecond c) && (microsecond c <? 1000000).

(** An optional [+HH:MM[:SS[.ffffff]]] up to the end of the string. The
    offset must lie strictly between minus and plus one day, as
    [timezone] requires. *)
Definition parse_offset (s : string) : option (option timedelta) :=
  match s with
  | EmptyString => Some None
  | String c s =>
      sign ← (if Ascii.eqb c "+" then Some 1
              else if Ascii.eqb c "-" then Some (-1) else None);
      '(hh, s) ← parse_digits 2 0 s;
      s ← expect ":" s;
      '(mm, s) ← parse_digits 2 0 s;
      '(ss, us, s) ← match s with
                     | EmptyString => Some (0, 0, EmptyString)
                     | String ":" s =>
                         '(ss, s) ← parse_digits 2 0 s;
                         '(us, s) ← parse_fraction s;
                         Some (ss, us, s)
                     | _ => None
                     end;
      let total := ((hh * 60 + mm) * 60 + ss) * 1000000 + us in
      match s with
      | EmptyString =>
          if total <? 86400000000
          then Some (Some (timedelta_of_microseconds (sign * total)))
          else None
      | _ => None
      end
  end.

Definition parse_isoformat (s : string) : option datetime :=
  '(y, s) ← parse_digits 4 0 s;
  s ← expect "-" s;
  '(mo, s) ← parse_digits 2 0 s;
  s ← expect "-" s;
  '(d, s) ← parse_digits 2 0 s;
  s ← skip_char s;
  '(h, s) ← parse_digits 2 0 s;
  s ← expect ":" s;
  '(mi, s) ← parse_digits 2 0 s;
  s ← expect ":" s;
  '(sec, s) ← parse_digits 2 0 s;
  '(us, s) ← parse_fraction s;
  off ← parse_offset s;
  let c := mk_civil y mo d h mi sec us in
  if civil_okb c then Some (mk_datetime c off) else None.

(** ** Python values and the state file *)

(** The values that flow through [load_state] and [save_state]: what
    [json.load] can return ([None], [bool], [int], [float], [str], [list],
    [dict] with string keys) and [datetime] objects. *)
#[local] Unset Elimination Schemes.
Inductive pyval :=
| PNone
| PBool (b : bool)
| PInt (n : Z)
| PFloat (x : float)
| PStr (s : string)
| PList (items : list pyval)
| PDict (entries : gmap string pyval)
| PDatetime (dt : datetime).
#[local] Set Elimination Schemes.

(** What [json.dump(obj, default=str)] serialises [obj] as, read back as a
    Python value: an object that JSON has no form for goes through
    [default], here [str]. *)
Fixpoint jsonable (v : pyval) : pyval :=
  match v with
  | PDatetime dt => PStr (datetime_str dt)
  | PList items => PList (jsonable <$> items)
  | PDict entries => PDict (jsonable <$> entries)
  | _ => v
  end.

(** The file at [config.db_path]: missing, present with a content that
    [json.load] rejects (not JSON, or not UTF-8), or present with a JSON
    document, given by the value that [json.load] decodes it to; or a path
    that cannot be read at all, [open] or [json.load] raising [e]
    ([PermissionError] without the right to read, [IsADirectoryError] on a
    directory, another [OSError], [RecursionError] on a document nested too
    deep). *)
Inductive file :=
| Absent
| Unreadable
| Document (v : pyval)
| Inaccessible (e : exn).

(** ** The world of a handler *)

Inductive level := DEBUG | INFO | WARNING.

(** The calls to [logger], one constructor per call site. *)
Inductive message :=
| Failed_to_load_state (e : exn)
| Afk_activated (afk_message : string)
| Afk_deactivated (afk_duration : timedelta)
| Afk_was_not_active
| No_reply_inactive (sender_id : Z)
| Already_notified (sender_id : Z)
| Sent_notification (sender_id : Z).

Record log_record := mk_log_record {
  log_level : level;
  log_message : message
}.

(** [event.peer_id]: Telethon's [PeerUser], [PeerChat] and [PeerChannel]. *)
Inductive peer :=
| PeerUser (user_id : Z)
| PeerChat (chat_id : Z)
| PeerChannel (channel_id : Z).

(** What a handler asks the client to do: [event.edit(text)] rewrites the
    command message, [event.reply(text)] answers in the chat [to] the
    message came from. *)
Inductive directive :=
| Edit (text : string)
| Reply (to : peer) (text : string).

(** The state file, whether it can be opened for writing, the log and the
    directives issued so far (oldest first). *)
Record world := mk_world {
  db : file;
  db_writable : bool;
  journal : list log_record;
  outbox : list directive
}.

Definition set_db (f : file) (w : world) : world :=
  mk_world f (db_writable w) (journal w) (outbox w).

Definition add_log (r : log_record) (w : world) : world :=
  mk_world (db w) (db_writable w) (journal w ++ [r]) (outbox w).

Definition add_directive (d : directive) (w : world) : world :=
  mk_world (db w) (db_writable w) (journal w) (outbox w ++ [d]).

(** A computation returns or raises, and leaves a world behind in both
    cases: what was written before an exception stays written. *)
Definition M (A : Type) : Type := world -> outcome A * world.

#[export] Instance M_ret : MRet M := fun A a w => (Return a, w).

#[export] Instance M_bind : MBind M := fun A B f m w =>
  match m w with
  | (Return a, w') => f a w'
  | (Raise e, w') => (Raise e, w')
  end.

Definition raise {A} (e : exn) : M A := fun w => (Raise e, w).

(** [try: body except ...: handler]; the handler re-raises what its
    [except] clause does not name. *)
Definition try_except {A} (body : M A) (handler : exn -> M A) : M A := fun w =>
  match body w with
  | (Raise e, w') => handler e w'
  | r => r
  end.

Definition of_outcome {A} (r : outcome A) : M A := fun w => (r, w).

Definition logger (l : level) (m : message) : M unit := fun w =>
  (Return tt, add_log (mk_log_record l m) w).

Definition event_edit (text : string) : M unit := fun w =>
  (Return tt, add_directive (Edit text) w).

Definition event_reply (to : peer) (text : string) : M unit := fun w =>
  (Return tt, add_directive (Reply to text) w).

(** [with open(config.db_path, encoding="utf-8") as f: json.load(f)].
    On a content that it rejects [json.load] raises [JSONDecodeError] (or
    [UnicodeDecodeError], a [ValueError] as well). *)
Definition read_db : M pyval := fun w =>
  match db w with
  | Absent => (Raise FileNotFoundError, w)
  | Unreadable => (Raise JSONDecodeError, w)
  | Document v => (Return v, w)
  | Inaccessible e => (Raise e, w)
  end.

(** [with open(config.db_path, "w", encoding="utf-8") as f:
    json.dump(obj, f, ensure_ascii=False, default=str)]: the file then
    holds a document that [json.load] decodes to [jsonable obj]. When the
    file cannot be opened for writing, [open] raises and the file is as it
    was. *)
Definition write_db (obj : pyval) : M unit := fun w =>
  if db_writable w then (Return tt, set_db (Document (jsonable obj)) w)
  else (Raise PermissionError, w).

(** ** The library functions the engine is written against *)

(** [datetime.fromisoformat] ([None] when it raises [ValueError]) and what
    pydantic does, for each field type, with a value that is not of that
    type already ([None] when it reports a validation error). Both depend
    on the installed versions; nothing below depends on which. *)
Class Runtime := {
  fromisoformat : string -> option datetime;
  lax_str : pyval -> option string;
  lax_int : pyval -> option Z;
  lax_bool : pyval -> option bool;
  lax_datetime : pyval -> option datetime
}.

(** The law that Python documents for [fromisoformat]: it inverts
    [isoformat], hence [str]. (The parser of CPython obeys it on the
    datetimes whose offset is a whole number of seconds only, see
    [c_fromisoformat] below.) *)
Definition inverts_str (R : Runtime) : Prop :=
  forall dt, datetime_ok dt -> fromisoformat (datetime_str dt) = Some dt.

(** The reference runtime: the reference parser, and a pydantic that
    accepts a value of the field's type only. *)
Definition strict_runtime : Runtime := {|
  fromisoformat := parse_isoformat;
  lax_str := fun _ => None;
  lax_int := fun _ => None;
  lax_bool := fun _ => None;
  lax_datetime := fun _ => None
|}.

(** [datetime.fromisoformat] as the C implementation of CPython has it, on
    the strings that [str] prints: it builds the offset from the hours,
    minutes and seconds that it read, and returns UTC when these come to
    zero, whatever microseconds follow them. (On other strings it is the
    reference parser, which refuses them.) *)
Definition c_fromisoformat (s : string) : option datetime :=
  dt ← parse_isoformat s;
  Some match utcoffset dt with
       | Some off =>
           if Z.abs (total_microseconds off) <? 1000000
           then mk_datetime (fields dt) (Some (mk_timedelta 0 0 0))
           else dt
       | None => dt
       end.

(** The runtime with that parser, and a pydantic that accepts a value of
    the field's type only. *)
Definition cpython_runtime : Runtime := {|
  fromisoformat := c_fromisoformat;
  lax_str := fun _ => None;
  lax_int := fun _ => None;
  lax_bool := fun _ => None;
  lax_datetime := fun _ => None
|}.

(** ** [app/state.py] *)

Record BotState := mk_BotState {
  afk_message : string;
  notified_ids : list Z;
  is_afk : bool;
  afk_start_time : datetime
}.

Definition set_is_afk (b : bool) (state : BotState) : BotState :=
  mk_BotState (afk_message state) (notified_ids state) b (afk_start_time state).

Definition append_notified_id (sender_id : Z) (state : BotState) : BotState :=
  mk_BotState (afk_message state) (notified_ids state ++ [sender_id])
    (is_afk state) (afk_start_time state).

(** [state.model_dump()] *)
Definition model_dump (state : BotState) : gmap string pyval :=
  <["afk_message" := PStr (afk_message state)]>
  (<["notified_ids" := PList (PInt <$> notified_ids state)]>
  (<["is_afk" := PBool (is_afk state)]>
  (<["afk_start_time" := PDatetime (afk_start_time state)]> ∅))).

(** [except (json.JSONDecodeError, ValueError, FileNotFoundError)]:
    [JSONDecodeError] and pydantic's [ValidationError] are subclasses of
    [ValueError]; [TypeError], [RecursionError] and, [FileNotFoundError]
    apart, [OSError] and its subclasses are not named. *)
Definition load_state_catches (e : exn) : bool :=
  match e with
  | JSONDecodeError | ValueError | ValidationError | FileNotFoundError => true
  | TypeError | PermissionError | IsADirectoryError | OSError | RecursionError => false
  end.

Section Engine.
Context {R : Runtime}.

(** Validation of one value against a field type: a value of that type
    is taken as it is. *)
Definition validate_str (v : pyval) : option string :=
  match v with PStr s => Some s | _ => lax_str v end.

Definition validate_int (v : pyval) : option Z :=
  match v with PInt n => Some n | _ => lax_int v end.

Definition validate_bool (v : pyval) : option bool :=
  match v with PBool b => Some b | _ => lax_bool v end.

Definition validate_datetime (v : pyval) : option datetime :=
  match v with PDatetime dt => Some dt | _ => lax_datetime v end.

(** [List[int]]: of the values that [json.load] returns only a list is a
    sequence for pydantic; every item is validated as an [int]. *)
Definition validate_list_int (v : pyval) : option (list Z) :=
  match v with PList items => mapM validate_int items | _ => None end.

(** One field of a [BotState] built from keyword arguments: the default
    when the keyword is absent, the validated value otherwise. *)
Definition field {A} (kwargs : gmap string pyval) (name : string)
    (validate : pyval -> option A) (default : A) : option A :=
  match kwargs !! name with
  | Some v => validate v
  | None => Some default
  end.

(** The constructor [BotState], called with the keyword arguments
    [kwargs] at clock reading [now]: [None] stands for pydantic's
    [ValidationError]. Keywords that name no field are ignored. The
    default of [afk_start_time] is [datetime.now(tz=...)]. *)
Definition BotState_new (now : clock) (kwargs : gmap string pyval) : option BotState :=
  m ← field kwargs "afk_message" validate_str "";
  ids ← field kwargs "notified_ids" validate_list_int [];
  a ← field kwargs "is_afk" validate_bool false;
  t ← field kwargs "afk_start_time" validate_datetime (datetime_now now);
  Some (mk_BotState m ids a t).

Definition BotState_init (now : clock) (kwargs : gmap string pyval) : M BotState :=
  match BotState_new now kwargs with
  | Some state => mret state
  | None => raise ValidationError
  end.

Definition save_state (state : BotState) : M unit :=
  write_db (PDict (model_dump state)).

(** The block of [load_state] under "Convert AFK start time from string
    to datetime if necessary": a start time that is a string is replaced by
    the datetime it parses to, or by the clock reading when
    [fromisoformat] raises [ValueError]. *)
Definition convert_start_time (now : clock) (data : gmap string pyval) : gmap string pyval :=
  match data !! "afk_start_time" with
  | Some (PStr s) =>
      match fromisoformat s with
      | Some dt => <["afk_start_time" := PDatetime dt]> data
      | None => <["afk_start_time" := PDatetime (datetime_now now)]> data
      end
  | _ => data
  end.

(** The body of the [try] in [load_state]. A document that is not an
    object makes it raise [TypeError]: ["afk_start_time" in data] raises on
    [None], a [bool] and a number, and on a [list] or a [str] either the
    subscript [data["afk_start_time"]] or the unpacking of [data] into
    keyword arguments does. *)
Definition load_state_try (now : clock) : M BotState :=
  data ← read_db;
  match data with
  | PDict data => BotState_init now (convert_start_time now data)
  | _ => raise TypeError
  end.

Definition load_state (now : clock) : M BotState :=
  try_except (load_state_try now) (fun e =>
    if load_state_catches e then
      logger WARNING (Failed_to_load_state e);;
      BotState_init now ∅
    else raise e).

(** ** [app/main.py] *)

(** What a handler reads from its event. [AfkCommand group1] is an
    outgoing message that matches the pattern of the [.afk] command, with
    the text of the pattern's group 1 (what follows the command and the
    blanks after it, up to the end of the line); [UnafkCommand] is an
    outgoing message that matches the pattern of [.unafk];
    [IncomingMessage] is any incoming message. *)
Inductive event :=
| AfkCommand (group1 : string)
| UnafkCommand
| IncomingMessage (peer_id : peer) (sender_id : Z).

Definition start_afk_handler (now : clock) (group1 : string) : M unit :=
  let afk_message := strip group1 in
  state ← BotState_init now (<["afk_message" := PStr afk_message]> (<["is_afk" := PBool true]> ∅));
  save_state state;;
  logger INFO (Afk_activated afk_message);;
  let response := "**AFK mode activated**" in
  let response :=
    if nonempty afk_message
    then response +:+ newline +:+ "Message: `" +:+ afk_message +:+ "`"
    else response in
  event_edit response.

Definition start_unafk_handler (now : clock) : M unit :=
  state ← load_state now;
  if is_afk state then
    let state := set_is_afk false state in
    save_state state;;
    afk_duration ← of_outcome (datetime_sub (datetime_now now) (afk_start_time state));
    logger INFO (Afk_deactivated afk_duration);;
    event_edit ("**AFK mode deactivated**"
                +:+ newline +:+ "You were AFK for `" +:+ format_duration afk_duration +:+ "`")
  else
    logger WARNING Afk_was_not_active;;
    event_edit "**AFK mode was not active**".

Definition is_PeerUser (p : peer) : bool :=
  match p with PeerUser _ => true | _ => false end.

Definition handle_private_message (now : clock) (peer_id : peer) (sender_id : Z) : M unit :=
  if negb (is_PeerUser peer_id) then mret tt
  else
    state ← load_state now;
    if negb (is_afk state) then
      logger DEBUG (No_reply_inactive sender_id)
    else if bool_decide (sender_id ∈ notified_ids state) then
      logger DEBUG (Already_notified sender_id)
    else
      let state := append_notified_id sender_id state in
      save_state state;;
      afk_duration ← of_outcome (datetime_sub (datetime_now now) (afk_start_time state));
      let response := "**I am currently AFK**" in
      let response :=
        if nonempty (afk_message state)
        then response +:+ newline +:+ "Reason: `" +:+ afk_message state +:+ "`"
        else response in
      let response :=
        response +:+ newline +:+ "Duration: `" +:+ format_duration afk_duration +:+ "`" in
      logger INFO (Sent_notification sender_id);;
      event_reply peer_id response.

(** The client calls the handler registered for the event. *)
Definition handle (now : clock) (ev : event) : M unit :=
  match ev with
  | AfkCommand group1 => start_afk_handler now group1
  | UnafkCommand => start_unafk_handler now
  | IncomingMessage peer_id sender_id => handle_private_message now peer_id sender_id
  end.

(** Events are handled one after the other, each at its own clock
    reading; an exception that escapes a handler ends that event only. *)
Definition step (w : world) (timed : clock * event) : world :=
  snd (handle timed.1 timed.2 w).

Definition run (events : list (clock * event)) (w : world) : world :=
  foldl step w events.

End Engine.

(** ** The specification's reading of the duration label *)

(** The label of section 4.1: the units [d], [h] and [m] in this order,
    separated by one space, without the units that are zero, except that
    the minutes stand when there is nothing else. *)
Definition duration_label (d h m : Z) : string :=
  match (0 <? d)%Z, (0 <? h)%Z, (0 <? m)%Z with
  | true, true, true => str_int d +:+ "d" +:+ " " +:+ str_int h +:+ "h" +:+ " " +:+ str_int m +:+ "m"
  | true, true, false => str_int d +:+ "d" +:+ " " +:+ str_int h +:+ "h"
  | true, false, true => str_int d +:+ "d" +:+ " " +:+ str_int m +:+ "m"
  | true, false, false => str_int d +:+ "d"
  | false, true, true => str_int h +:+ "h" +:+ " " +:+ str_int m +:+ "m"
  | false, true, false => str_int h +:+ "h"
  | false, false, _ => str_int m +:+ "m"
  end.

(** The state that [BotState()] builds at clock reading [now]. *)
Definition default_state (now : clock) : BotState :=
  mk_BotState "" [] false (datetime_now now).

(** The document that [save_state] writes for [state]. *)
Definition saved (state : BotState) : file :=
  Document (jsonable (PDict (model_dump state))).

(** The state that section 4.3 has Activate build: active, with the given
    message, started now, nobody notified yet. *)
Definition activated_state (now : clock) (message : string) : BotState :=
  mk_BotState message [] true (datetime_now now).

(** A datetime without its microseconds. *)
Definition to_the_second (dt : datetime) : datetime :=
  let c := fields dt in
  mk_datetime (mk_civil (year c) (month c) (day c) (hour c) (minute c) (second c) 0)
    (utcoffset dt).

(** The equivalence of the round-trip property of section 8: same
    message, same set of notified identifiers whatever their order, same
    [isActive], [startedAt] equal to the second. *)
Definition equivalent_states (a b : BotState) : Prop :=
  afk_message a = afk_message b
  /\ (forall id, id ∈ notified_ids a <-> id ∈ notified_ids b)
  /\ is_afk a = is_afk b
  /\ to_the_second (afk_start_time a) = to_the_second (afk_start_time b).

(** A start time without an offset from UTC, or with an offset of a
    whole number of seconds, as every zone of the time zone database has
    at every instant. *)
Definition whole_second_offset (dt : datetime) : Prop :=
  match utcoffset dt with
  | Some off => td_microseconds off = 0
  | None => True
  end.

(** The texts of the directives. *)
Definition activation_text (afk_message : string) : string :=
  if nonempty afk_message
  then "**AFK mode activated**" +:+ newline +:+ "Message: `" +:+ afk_message +:+ "`"
  else "**AFK mode activated**".

Definition deactivation_text (elapsed : timedelta) : string :=
  "**AFK mode deactivated**" +:+ newline +:+ "You were AFK for `"
  +:+ format_duration elapsed +:+ "`".

Definition notification_text (afk_message : string) (elapsed : timedelta) : string :=
  (if nonempty afk_message
   then "**I am currently AFK**" +:+ newline +:+ "Reason: `" +:+ afk_message +:+ "`"
   else "**I am currently AFK**")
  +:+ newline +:+ "Duration: `" +:+ format_duration elapsed +:+ "`".

Section Views.
Context {R : Runtime}.

(** What [load_state] reads back from a file written by [save_state]:
    the state that was saved, with the start time as [fromisoformat] reads
    its printed form. *)
Definition reloaded (now : clock) (state : BotState) : BotState :=
  mk_BotState (afk_message state) (notified_ids state) (is_afk state)
    match fromisoformat (datetime_str (afk_start_time state)) with
    | Some dt => dt
    | None => datetime_now now
    end.

(** The list of notified identifiers that [load_state] returns holds no
    identifier twice. *)
Definition duplicate_free (w : world) : Prop :=
  forall now state w1,
    load_state now w = (Return state, w1) -> NoDup (notified_ids state).

End Views.

(** Sample values for the examples. *)
Definition utc_offset : timedelta := mk_timedelta 0 0 0.

Definition utc (y mo d h mi s : Z) : datetime :=
  mk_datetime (mk_civil y mo d h mi s 0) (Some utc_offset).

Definition utc_clock (y mo d h mi s : Z) : clock :=
  mk_clock (mk_civil y mo d h mi s 0) utc_offset.

Definition noon : clock := utc_clock 2024 1 1 12 0 0.

Definition afternoon : clock := utc_clock 2024 1 1 14 7 0.

(** An active session started at nine, correspondent 7 already notified. *)
Definition busy_since_nine : BotState :=
  mk_BotState "busy" [7] true (utc 2024 1 1 9 0 0).

(** The same session with a start time one microsecond east of UTC. *)
Definition busy_off_by_a_microsecond : BotState :=
  mk_BotState "busy" [7] true
    (mk_datetime (mk_civil 2024 1 1 9 0 0 0) (Some (mk_timedelta 0 0 1))).

(** A world with nothing logged and nothing sent. *)
Definition store_of (f : file) (writable : bool) : world :=
  mk_world f writable [] [].

(** Two records whose start time is no timestamp: a string that is not
    a date, and [null]. *)
Definition started_yesterday : gmap string pyval :=
  <["afk_message" := PStr "busy"]>
  (<["notified_ids" := PList [PInt 7]]>
  (<["is_afk" := PBool true]>
  (<["afk_start_time" := PStr "yesterday"]> ∅))).

Definition started_null : gmap string pyval :=
  <["afk_start_time" := PNone]> started_yesterday.

(** ** The registration of the handlers

    [client.on(events.NewMessage(...))] registers each handler with a
    filter: [outgoing=True] keeps the messages that the account itself
    sent, [incoming=True] the others, and [pattern] keeps the messages
    whose text the compiled pattern matches at its start
    ([re.compile(pattern).match]); the match is [event.pattern_match]. *)

(** A new message as the client reports it: [message.out], its text, the
    chat it is in and its sender. *)
Record new_message := mk_new_message {
  out : bool;
  raw_text : string;
  message_peer_id : peer;
  message_sender_id : Z
}.

(** A pattern that is a literal text, matched at the start of [text]:
    what remains of [text] after it. *)
Fixpoint match_literal (literal text : string) : option string :=
  match literal, text with
  | EmptyString, _ => Some text
  | String c literal', String c' text' =>
      if Ascii.eqb c c' then match_literal literal' text' else None
  | String _ _, EmptyString => None
  end.

(** A dot followed by a star, in a group: the characters up to the first
    line feed, which the dot does not match. *)
Fixpoint dot_star (text : string) : string :=
  match text with
  | String c text' =>
      if Ascii.eqb c (ascii_of_nat 10) then EmptyString else String c (dot_star text')
  | EmptyString => EmptyString
  end.

(** The pattern of [start_afk_handler]: the text [.afk], any number of
    whitespace characters (the class written backslash s matches what
    [isspace] accepts, line feeds included), then group 1. The value is
    [event.pattern_match.group(1)]. *)
Definition afk_pattern (text : string) : option string :=
  rest ← match_literal ".afk" text; Some (dot_star (lstrip rest)).

(** The pattern of [start_unafk_handler]: the text [.unafk]. *)
Definition unafk_pattern (text : string) : bool :=
  match match_literal ".unafk" text with Some _ => true | None => false end.

(** The events that one new message gives rise to: one for each handler
    whose filter lets the message through, in the order of registration. *)
Definition dispatch (m : new_message) : list event :=
  (if out m then
     match afk_pattern (raw_text m) with
     | Some group1 => [AfkCommand group1]
     | None => []
     end
   else [])
  ++ (if out m && unafk_pattern (raw_text m) then [UnafkCommand] else [])
  ++ (if negb (out m)
      then [IncomingMessage (message_peer_id m) (message_sender_id m)]
      else []).

Section Reception.
Context {R : Runtime}.

(** The client handles a new message at clock reading [timed.1]. *)
Definition receive (w : world) (timed : clock * new_message) : world :=
  foldl step w ((fun ev => (timed.1, ev)) <$> dispatch timed.2).

(** The state that the store holds: what [load_state] would return. *)
Definition stored (now : clock) (w : world) : outcome BotState :=
  fst (load_state now w).

End Reception.

(** ** [app/utils.py]: [setup_logger], and [main] of [app/main.py] *)

(** The two settings of [app/config.py] that [setup_logger] reads. *)
Record Config := mk_Config {
  config_log_level : string;
  config_log_format : string
}.

(** What a call can raise: an instance of [Exception], or of another
    subclass of [BaseException] ([KeyboardInterrupt], [SystemExit]), with
    its text. *)
Inductive raised :=
| An_Exception (text : string)
| Not_an_Exception (text : string).

(** The calls that [main] and [setup_logger] make. *)
Inductive call :=
| Client_start
| Client_disconnect
| Client_run_until_disconnected
| Logger_remove
| Logger_add (format level : string)
| Logger_info (text : string)
| Logger_exception (text : string).

(** One execution of the process: what [client.start()],
    [client.disconnect()], [logger.add(...)] and
    [client.run_until_disconnected()] raise, if anything. [logger.remove()],
    [logger.info(...)] and [logger.exception(...)] are taken to return. *)
Record library := mk_library {
  start_raises : option raised;
  disconnect_raises : option raised;
  logger_add_raises : option raised;
  run_raises : option raised
}.

(** A computation of the process: the calls made so far, and a value or
    what was raised. *)
Definition P (A : Type) : Type := list call -> (A + raised) * list call.

Definition P_bind {A B} (m : P A) (f : A -> P B) : P B := fun trace =>
  match m trace with
  | (inl a, trace') => f a trace'
  | (inr e, trace') => (inr e, trace')
  end.

Definition P_call (c : call) (raises : option raised) : P unit := fun trace =>
  match raises with
  | None => (inl tt, trace ++ [c])
  | Some e => (inr e, trace ++ [c])
  end.

(** [try: body except Exception as e: handler(e)] *)
Definition P_except_Exception {A} (body : P A) (handler : string -> P A) : P A :=
  fun trace =>
    match body trace with
    | (inr (An_Exception text), trace') => handler text trace'
    | r => r
    end.

Definition setup_logger (config : Config) (lib : library) : P unit :=
  P_bind (P_call Logger_remove None) (fun _ =>
  P_bind (P_call (Logger_add (config_log_format config) (config_log_level config))
            (logger_add_raises lib)) (fun _ =>
  P_bind (P_call (Logger_info "Logging initialized") None) (fun _ =>
  P_call (Logger_info ("Logging level set to: " +:+ config_log_level config)) None))).

(** [main], once [parser.parse_args()] has returned: [login] is
    [args.login]. *)
Definition main (config : Config) (lib : library) (login : bool) : P unit :=
  P_except_Exception
    (P_bind (P_call Client_start (start_raises lib)) (fun _ =>
     if login then P_call Client_disconnect (disconnect_raises lib)
     else
       P_bind (setup_logger config lib) (fun _ =>
       P_bind (P_call (Logger_info "Bot started successfully.") None) (fun _ =>
       P_call Client_run_until_disconnected (run_raises lib)))))
    (fun text => P_call (Logger_exception ("Unexpected error occurred: " +:+ text)) None).

(** * Properties *)

(** ** Text and arithmetic *)

Lemma string_app_assoc (a b c : string) : (a +:+ b) +:+ c = a +:+ (b +:+ c).
Proof.
  induction a as [|x a IH]; [reflexivity |].
  change (String x ((a +:+ b) +:+ c) = String x (a +:+ (b +:+ c))).
  now rewrite IH.
Qed.

Lemma string_app_nonempty (a : string) (x : ascii) (b : string) :
  a +:+ String x b <> "".
Proof. destruct a; discriminate. Qed.

Lemma divmod_eq (a b : Z) : divmod a b = (a / b, a mod b).
Proof. unfold divmod, Z.div, Z.modulo. now destruct (Z.div_eucl a b). Qed.

(** ** The reference parser inverts [str] *)

Lemma digit_value_digit_char (d : Z) :
  0 <= d < 10 -> digit_value (digit_char d) = Some d.
Proof.
  intros Hd.
  assert (Hcases : d = 0 \/ d = 1 \/ d = 2 \/ d = 3 \/ d = 4 \/ d = 5
                   \/ d = 6 \/ d = 7 \/ d = 8 \/ d = 9) by lia.
  repeat (destruct Hcases as [-> | Hcases]; [reflexivity |]).
  now subst.
Qed.

Lemma parse_digits_zero_padded (w : nat) (acc n : Z) (rest : string) :
  parse_digits w acc (zero_padded w n +:+ rest)
  = Some (acc * 10 ^ Z.of_nat w + n mod 10 ^ Z.of_nat w, rest).
Proof.
  revert acc. induction w as [|w IH]; intros acc.
  - change (Some (acc, rest) = Some (acc * 1 + n mod 1, rest)).
    rewrite Z.mod_1_r. do 2 f_equal. lia.
  - change (zero_padded (S w) n +:+ rest)
      with (String (digit_char ((n / 10 ^ Z.of_nat w) mod 10)) (zero_padded w n +:+ rest)).
    cbn [parse_digits].
    rewrite digit_value_digit_char by (apply Z.mod_pos_bound; lia).
    cbn [mbind option_bind]. rewrite IH. do 2 f_equal.
    rewrite Nat2Z.inj_succ, Z.pow_succ_r by lia.
    rewrite (Z.mul_comm 10), Z.rem_mul_r by lia. lia.
Qed.

Lemma parse_digits_field (w : nat) (n : Z) (rest : string) :
  0 <= n < 10 ^ Z.of_nat w ->
  parse_digits w 0 (zero_padded w n +:+ rest) = Some (n, rest).
Proof.
  intros Hn. rewrite parse_digits_zero_padded, Z.mod_small by exact Hn.
  reflexivity.
Qed.

Lemma string_app_nil_r (a : string) : a +:+ "" = a.
Proof.
  induction a as [|x a IH]; [reflexivity |].
  change (String x (a +:+ "") = String x a). now rewrite IH.
Qed.

Lemma expect_app (c : ascii) (rest : string) :
  expect c (String c "" +:+ rest) = Some rest.
Proof.
  change (expect c (String c rest) = Some rest).
  unfold expect. now rewrite Ascii.eqb_refl.
Qed.

(** The printed fraction is read back when what follows does not start
    with a dot. *)
Lemma parse_fraction_format (us : Z) (rest : string) :
  0 <= us < 1000000 ->
  (forall t, rest <> String "." t) ->
  parse_fraction (format_fraction us +:+ rest) = Some (us, rest).
Proof.
  intros Hus Hrest. unfold format_fraction.
  destruct (us =? 0) eqn:E.
  - apply Z.eqb_eq in E. subst us. change ("" +:+ rest) with rest.
    destruct rest as [|c rest']; [reflexivity |].
    unfold parse_fraction.
    destruct (Ascii.eqb c ".") eqn:Ec.
    + apply Ascii.eqb_eq in Ec. subst c. now destruct (Hrest rest').
    + destruct c as [[] [] [] [] [] [] [] []]; try reflexivity; discriminate.
  - rewrite string_app_assoc.
    change ("." +:+ zero_padded 6 us +:+ rest)
      with (String "." (zero_padded 6 us +:+ rest)).
    unfold parse_fraction. now apply parse_digits_field.
Qed.

(** *** Normalised time spans *)

Lemma timedelta_new_normal (d s us : Z) : timedelta_normal (timedelta_new d s us).
Proof.
  unfold timedelta_new, timedelta_normal.
  fold (divmod us 1000000). rewrite divmod_eq.
  fold (divmod (s + us / 1000000) 86400). rewrite divmod_eq. simpl.
  split; apply Z.mod_pos_bound; lia.
Qed.

Lemma timedelta_new_total (d s us : Z) :
  total_microseconds (timedelta_new d s us) = (d * 86400 + s) * 1000000 + us.
Proof.
  unfold timedelta_new, total_microseconds.
  fold (divmod us 1000000). rewrite divmod_eq.
  fold (divmod (s + us / 1000000) 86400). rewrite divmod_eq. simpl.
  pose proof (Z.div_mod us 1000000 ltac:(lia)).
  pose proof (Z.div_mod (s + us / 1000000) 86400 ltac:(lia)).
  lia.
Qed.

Lemma timedelta_total_inj (a b : timedelta) :
  timedelta_normal a -> timedelta_normal b ->
  total_microseconds a = total_microseconds b -> a = b.
Proof.
  destruct a as [da sa ua], b as [db sb ub].
  unfold timedelta_normal, total_microseconds; simpl.
  intros [Hsa Hua] [Hsb Hub] Heq.
  assert (ua = ub) by lia. subst ub.
  assert (sa = sb) by lia. subst sb.
  assert (da = db) by lia. now subst db.
Qed.

Lemma timedelta_of_total (td : timedelta) :
  timedelta_normal td -> timedelta_of_microseconds (total_microseconds td) = td.
Proof.
  intros Hn. apply timedelta_total_inj; [apply timedelta_new_normal | exact Hn |].
  unfold timedelta_of_microseconds. rewrite timedelta_new_total. lia.
Qed.

Lemma timedelta_neg_total (td : timedelta) :
  total_microseconds (timedelta_neg td) = - total_microseconds td.
Proof.
  unfold timedelta_neg. rewrite timedelta_new_total.
  unfold total_microseconds. lia.
Qed.

(** *** Offsets *)

Lemma parse_offset_digits (sign : ascii) (k us : Z) :
  (sign = "+"%char /\ k = 1) \/ (sign = "-"%char /\ k = -1) ->
  0 <= us < 86400000000 ->
  let hh := us / 3600000000 in
  let mm := (us mod 3600000000) / 60000000 in
  let ss := (us mod 3600000000) mod 60000000 in
  parse_offset
    (String sign ""
     +:+ zero_padded 2 hh +:+ ":" +:+ zero_padded 2 mm
     +:+ (if ss =? 0 then ""
          else ":" +:+ zero_padded 2 (ss / 1000000) +:+ format_fraction (ss mod 1000000)))
  = Some (Some (timedelta_of_microseconds (k * us))).
Proof.
  intros Hsign Hus. cbv zeta.
  pose proof (Z.div_mod us 3600000000 ltac:(lia)).
  pose proof (Z.mod_pos_bound us 3600000000 ltac:(lia)).
  pose proof (Z.div_mod (us mod 3600000000) 60000000 ltac:(lia)).
  pose proof (Z.mod_pos_bound (us mod 3600000000) 60000000 ltac:(lia)).
  pose proof (Z.div_mod ((us mod 3600000000) mod 60000000) 1000000 ltac:(lia)).
  pose proof (Z.mod_pos_bound ((us mod 3600000000) mod 60000000) 1000000 ltac:(lia)).
  set (ss := (us mod 3600000000) mod 60000000) in *.
  set (mm := (us mod 3600000000) / 60000000) in *.
  set (hh := us / 3600000000) in *.
  assert (0 <= hh < 24) by (subst hh; split; [apply Z.div_pos | apply Z.div_lt_upper_bound]; lia).
  assert (0 <= mm < 60) by (subst mm; split; [apply Z.div_pos | apply Z.div_lt_upper_bound]; lia).
  assert (0 <= ss / 1000000 < 60) by (split; [apply Z.div_pos | apply Z.div_lt_upper_bound]; lia).
  change (String sign "" +:+ ?x) with (String sign x).
  unfold parse_offset.
  assert (Hk : (if Ascii.eqb sign "+" then Some 1
                else if Ascii.eqb sign "-" then Some (-1) else None) = Some k)
    by (destruct Hsign as [[-> ->] | [-> ->]]; reflexivity).
  rewrite Hk. cbn [mbind option_bind].
  rewrite parse_digits_field by (change (10 ^ Z.of_nat 2) with 100; lia).
  cbn [mbind option_bind]. rewrite expect_app. cbn [mbind option_bind].
  rewrite parse_digits_field by (change (10 ^ Z.of_nat 2) with 100; lia).
  cbn [mbind option_bind].
  destruct (ss =? 0) eqn:Ess.
  - apply Z.eqb_eq in Ess. cbn [mbind option_bind].
    assert (Hlt : (((hh * 60 + mm) * 60 + 0) * 1000000 + 0 <? 86400000000) = true)
      by (apply Z.ltb_lt; lia).
    rewrite Hlt. do 3 f_equal. lia.
  - apply Z.eqb_neq in Ess.
    change (":" +:+ ?x) with (String ":" x). cbv iota beta.
    rewrite parse_digits_field by (change (10 ^ Z.of_nat 2) with 100; lia).
    cbn [mbind option_bind].
    rewrite <- (string_app_nil_r (format_fraction (ss mod 1000000))).
    rewrite parse_fraction_format by (try discriminate; lia).
    cbn [mbind option_bind].
    assert (Hlt : (((hh * 60 + mm) * 60 + ss / 1000000) * 1000000 + ss mod 1000000
                   <? 86400000000) = true) by (apply Z.ltb_lt; lia).
    rewrite Hlt. do 3 f_equal. lia.
Qed.

Lemma parse_offset_format_offset (off : option timedelta) :
  match off with Some o => offset_ok o | None => True end ->
  parse_offset (format_offset off) = Some off.
Proof.
  destruct off as [o|]; [| reflexivity].
  intros [Hn Hrange]. unfold format_offset.
  destruct (td_days o <? 0) eqn:Eneg.
  - apply Z.ltb_lt in Eneg. cbv iota beta.
    do 3 (rewrite divmod_eq; cbv iota beta).
    rewrite timedelta_neg_total.
    change ("-" +:+ ?x) with (String "-" "" +:+ x).
    rewrite (parse_offset_digits "-" (-1)).
    + do 2 f_equal. rewrite <- (timedelta_of_total o Hn) at 2. f_equal. lia.
    + right; split; reflexivity.
    + destruct Hn. unfold total_microseconds in *. lia.
  - apply Z.ltb_ge in Eneg. cbv iota beta.
    do 3 (rewrite divmod_eq; cbv iota beta).
    change ("+" +:+ ?x) with (String "+" "" +:+ x).
    rewrite (parse_offset_digits "+" 1).
    + do 2 f_equal. rewrite <- (timedelta_of_total o Hn) at 2. f_equal. lia.
    + left; split; reflexivity.
    + destruct Hn. unfold total_microseconds in *. lia.
Qed.

(** *** Datetimes *)

Lemma civil_okb_true (c : civil) : civil_ok c -> civil_okb c = true.
Proof.
  unfold civil_ok, civil_okb. intros H.
  repeat (apply andb_true_intro; split);
    first [apply Z.leb_le | apply Z.ltb_lt]; lia.
Qed.

Lemma format_offset_no_dot (off : option timedelta) (t : string) :
  format_offset off <> String "." t.
Proof.
  destruct off as [o|]; [| discriminate].
  unfold format_offset.
  destruct (td_days o <? 0); cbv iota beta;
    do 3 (rewrite divmod_eq; cbv iota beta); discriminate.
Qed.

Lemma parse_isoformat_datetime_str (dt : datetime) :
  datetime_ok dt -> parse_isoformat (datetime_str dt) = Some dt.
Proof.
  destruct dt as [c off]. intros [Hc Hoff]. simpl in Hc, Hoff.
  pose proof (civil_okb_true c Hc) as Hb.
  destruct Hc as (Hy & Hmo & Hd & Hh & Hmi & Hs & Hus).
  assert (Hd31 : day c <= 31).
  { unfold days_in_month in Hd.
    assert (Hm : month c = 1 \/ month c = 2 \/ month c = 3 \/ month c = 4
                 \/ month c = 5 \/ month c = 6 \/ month c = 7 \/ month c = 8
                 \/ month c = 9 \/ month c = 10 \/ month c = 11 \/ month c = 12) by lia.
    destruct (is_leap (year c));
      repeat (destruct Hm as [Hm | Hm]; [rewrite Hm in Hd; simpl in Hd; lia |]);
      rewrite Hm in Hd; simpl in Hd; lia. }
  unfold datetime_str, isoformat, format_time. cbv zeta. simpl fields. simpl utcoffset.
  change (String " " ?x +:+ ?y) with (String " " (x +:+ y)).
  rewrite !string_app_assoc.
  unfold parse_isoformat.
  rewrite parse_digits_field by (change (10 ^ Z.of_nat 4) with 10000; lia).
  cbn [mbind option_bind]. rewrite expect_app. cbn [mbind option_bind].
  rewrite parse_digits_field by (change (10 ^ Z.of_nat 2) with 100; lia).
  cbn [mbind option_bind]. rewrite expect_app. cbn [mbind option_bind].
  rewrite parse_digits_field by (change (10 ^ Z.of_nat 2) with 100; lia).
  cbn [mbind option_bind skip_char].
  rewrite parse_digits_field by (change (10 ^ Z.of_nat 2) with 100; lia).
  cbn [mbind option_bind]. rewrite expect_app. cbn [mbind option_bind].
  rewrite parse_digits_field by (change (10 ^ Z.of_nat 2) with 100; lia).
  cbn [mbind option_bind]. rewrite expect_app. cbn [mbind option_bind].
  rewrite parse_digits_field by (change (10 ^ Z.of_nat 2) with 100; lia).
  cbn [mbind option_bind].
  rewrite parse_fraction_format by (try apply format_offset_no_dot; lia).
  cbn [mbind option_bind].
  rewrite parse_offset_format_offset by exact Hoff.
  cbn [mbind option_bind].
  destruct c as [y mo d h mi sec us]; simpl in *. now rewrite Hb.
Qed.


(** ** The duration formatter *)

(** Rounding to a multiple of [1/P] and truncating: with [P] above half a
    million the rounding moves a number of microseconds by less than one
    microsecond, hence never onto the next whole second. *)
Lemma round_then_truncate (n P : Z) :
  0 <= n -> 524288 <= P ->
  let a := n * P in
  let q := a / 1000000 in
  let r := a mod 1000000 in
  let m := if 2 * r <? 1000000 then q
           else if 1000000 <? 2 * r then q + 1
           else if Z.even q then q else q + 1 in
  0 <= m /\ m / P = n / 1000000.
Proof.
  intros Hn HP a q r m.
  pose proof (Z.div_mod a 1000000 ltac:(lia)) as Ha.
  pose proof (Z.mod_pos_bound a 1000000 ltac:(lia)) as Hr.
  pose proof (Z.div_mod n 1000000 ltac:(lia)) as Hq.
  pose proof (Z.mod_pos_bound n 1000000 ltac:(lia)) as HR.
  fold q r in Ha, Hr.
  set (Q := n / 1000000) in *. set (R := n mod 1000000) in *.
  assert (HaQ : a = 1000000 * (Q * P) + R * P) by (unfold a; rewrite Hq; ring).
  assert (HRP : 0 <= R * P <= 999999 * P) by nia.
  assert (HQ : 0 <= Q) by (apply Z.div_pos; lia).
  assert (HQP : 0 <= Q * P) by (apply Z.mul_nonneg_nonneg; lia).
  assert (Hm : Q * P <= m < Q * P + P).
  { subst m. destruct (2 * r <? 1000000) eqn:E1; [apply Z.ltb_lt in E1; lia |].
    apply Z.ltb_ge in E1. destruct (1000000 <? 2 * r), (Z.even q); lia. }
  split; [lia |].
  symmetry. apply Z.div_unique with (r := m - P * Q); [left |]; lia.
Qed.

(** For a span shorter than 2^34 seconds (some 544 years), [int] of the
    float is the exact quotient, truncated toward zero. *)
Lemma int_of_true_divide_exact (n : Z) :
  Z.abs n < 2 ^ 34 * 1000000 ->
  int_of_float (true_divide n 1000000) = Z.quot n 1000000.
Proof.
  intros Hb. change (2 ^ 34 * 1000000) with 17179869184000000 in Hb.
  unfold true_divide. destruct (n =? 0) eqn:E0.
  { apply Z.eqb_eq in E0. now subst n. }
  apply Z.eqb_neq in E0.
  change (Z.log2 1000000) with 19.
  assert (Hl : 0 <= Z.log2 (Z.abs n) < 54).
  { split; [apply Z.log2_nonneg |]. apply Z.log2_lt_pow2; [lia |].
    change (2 ^ 54) with 18014398509481984. lia. }
  cbv zeta.
  set (e0 := Z.log2 (Z.abs n) - 19 - 52).
  set (e := if _ <=? _ then e0 else e0 - 1).
  assert (He : e <= -19).
  { subst e. destruct (_ <=? _) eqn:Ec; [| lia].
    destruct (Z.eq_dec (Z.log2 (Z.abs n)) 53) as [E53 |]; [| lia].
    exfalso. apply Z.leb_le in Ec. unfold e0 in Ec. rewrite E53 in Ec.
    cbn [fst snd] in Ec.
    change (2 ^ 52 * (1000000 * 2 ^ (Z.max 0 (53 - 19 - 52))))
      with 4503599627370496000000 in Ec.
    change (2 ^ Z.max 0 (- (53 - 19 - 52))) with 262144 in Ec. lia. }
  clearbody e.
  rewrite (Z.max_l 0 e), (Z.max_r 0 (- e)) by lia.
  change (2 ^ 0) with 1. rewrite Z.mul_1_r.
  unfold int_of_float.
  destruct (0 <=? e) eqn:Ee; [apply Z.leb_le in Ee; lia |].
  assert (HP : 524288 <= 2 ^ (- e))
    by (change 524288 with (2 ^ 19); apply Z.pow_le_mono_r; lia).
  destruct (round_then_truncate (Z.abs n) (2 ^ (- e)) ltac:(lia) HP) as [Hm Hdiv].
  cbv zeta in Hm, Hdiv.
  set (m := if 2 * _ <? 1000000 then _ else _) in *.
  destruct (Z.lt_total n 0) as [Hneg | [Hz | Hpos]]; [| contradiction |].
  - rewrite (Z.sgn_neg n Hneg).
    replace (-1 * m) with (- m) by ring.
    rewrite Z.quot_opp_l, (Z.quot_div_nonneg m) by lia.
    rewrite Hdiv, (Z.abs_neq n) by lia.
    rewrite <- (Z.quot_div_nonneg (- n)) by lia.
    rewrite Z.quot_opp_l by lia. ring.
  - rewrite (Z.sgn_pos n Hpos), Z.mul_1_l, (Z.quot_div_nonneg m) by lia.
    rewrite Hdiv, (Z.abs_eq n) by lia.
    symmetry. apply Z.quot_div_nonneg; lia.
Qed.

Lemma int_total_seconds_exact (td : timedelta) :
  Z.abs (total_microseconds td) < 2 ^ 34 * 1000000 ->
  int_total_seconds td = Z.quot (total_microseconds td) 1000000.
Proof. apply int_of_true_divide_exact. Qed.

Lemma int_total_seconds_nonneg (td : timedelta) :
  timedelta_normal td -> 0 <= td_days td ->
  td_days td * 86400 + td_seconds td < 2 ^ 34 ->
  int_total_seconds td = total_microseconds td / 1000000
  /\ total_microseconds td / 1000000 = td_days td * 86400 + td_seconds td.
Proof.
  intros [Hs Hus] Hd Hlim. change (2 ^ 34) with 17179869184 in Hlim.
  rewrite int_total_seconds_exact
    by (change (2 ^ 34 * 1000000) with 17179869184000000;
        unfold total_microseconds; lia).
  unfold total_microseconds. split.
  - apply Z.quot_div_nonneg; lia.
  - symmetry. apply Z.div_unique with (r := td_microseconds td); lia.
Qed.

Lemma format_duration_units (td : timedelta) :
  format_duration td =
  let s := int_total_seconds td in
  duration_label (s / 86400) ((s mod 86400) / 3600) (((s mod 86400) mod 3600) / 60).
Proof.
  unfold format_duration. cbv zeta.
  do 3 (rewrite divmod_eq; cbv beta iota).
  unfold duration_label, join.
  destruct (0 <? _), (0 <? _), (0 <? _); simpl;
    rewrite ?string_app_assoc; reflexivity.
Qed.

Lemma duration_label_nonempty (d h m : Z) : duration_label d h m <> "".
Proof.
  unfold duration_label.
  destruct (0 <? d), (0 <? h), (0 <? m); apply string_app_nonempty.
Qed.

(** C6. Duration formatter: for every non-negative duration shorter than
    2^34 seconds (some 544 years), with [seconds] the whole seconds of the
    span (the fraction dropped), [d = seconds / 86400],
    [h = (seconds mod 86400) / 3600] and
    [m = ((seconds mod 86400) mod 3600) / 60], the output is the label of
    [d], [h], [m]: the non-zero units in the order days, hours, minutes,
    separated by a space, and the minutes alone when days and hours are
    both zero. The output is never empty. The five rows of the table:
    0 s and 59 s give "0m", 125 min gives "2h 5m", 1 d 0 h 3 min gives
    "1d 3m", 3 d 4 h 0 min gives "3d 4h".

    From 2^34 seconds on the code departs from this: [total_seconds] is a
    float, and a span that ends on 999999 microseconds is rounded to the
    next whole second before [int] can drop the fraction. For 200000 days
    and 59.999999 seconds the units are 200000, 0 and 0, and the formatter
    prints one minute more. *)
Theorem format_duration_contract :
  (forall td : timedelta,
     timedelta_normal td -> 0 <= td_days td ->
     td_days td * 86400 + td_seconds td < 2 ^ 34 ->
     let seconds := total_microseconds td / 1000000 in
     let d := seconds / 86400 in
     let h := (seconds mod 86400) / 3600 in
     let m := ((seconds mod 86400) mod 3600) / 60 in
     format_duration td = duration_label d h m
     /\ format_duration td <> ""
     /\ 0 <= d /\ 0 <= h < 24 /\ 0 <= m < 60
     /\ d * 86400 + h * 3600 + m * 60 <= seconds < d * 86400 + h * 3600 + m * 60 + 60)
  /\ format_duration (mk_timedelta 0 0 0) = "0m"
  /\ format_duration (mk_timedelta 0 59 0) = "0m"
  /\ format_duration (timedelta_new 0 (125 * 60) 0) = "2h 5m"
  /\ format_duration (timedelta_new 1 (0 * 3600 + 3 * 60) 0) = "1d 3m"
  /\ format_duration (timedelta_new 3 (4 * 3600 + 0 * 60) 0) = "3d 4h"
  /\ (let td := mk_timedelta 200000 59 999999 in
      let seconds := total_microseconds td / 1000000 in
      seconds = 17280000059
      /\ int_total_seconds td = 17280000060
      /\ duration_label (seconds / 86400) ((seconds mod 86400) / 3600)
           (((seconds mod 86400) mod 3600) / 60) = "200000d"
      /\ format_duration td = "200000d 1m").
Proof.
  split; [| repeat split; reflexivity].
  intros td Hn Hd Hlim. cbv zeta.
  destruct (int_total_seconds_nonneg td Hn Hd Hlim) as [Hq Hsec].
  rewrite format_duration_units. cbv zeta. rewrite Hq.
  set (s := total_microseconds td / 1000000) in *.
  assert (0 <= s) by (destruct Hn; nia).
  split; [reflexivity |]. split; [apply duration_label_nonempty |].
  pose proof (Z.div_mod s 86400 ltac:(lia)).
  pose proof (Z.mod_pos_bound s 86400 ltac:(lia)).
  pose proof (Z.div_mod (s mod 86400) 3600 ltac:(lia)).
  pose proof (Z.mod_pos_bound (s mod 86400) 3600 ltac:(lia)).
  pose proof (Z.div_mod ((s mod 86400) mod 3600) 60 ltac:(lia)).
  pose proof (Z.mod_pos_bound ((s mod 86400) mod 3600) 60 ltac:(lia)).
  repeat split; lia.
Qed.

(** A span of 2 days, 3 hours, 15 minutes and 42.5 seconds. *)
Lemma format_duration_contract_witness :
  format_duration (mk_timedelta 2 11742 500000) = duration_label 2 3 15
  /\ format_duration (mk_timedelta 2 11742 500000) = "2d 3h 15m".
Proof.
  split; [| reflexivity].
  refine (proj1 (proj1 format_duration_contract (mk_timedelta 2 11742 500000) _ _ _)).
  - unfold timedelta_normal; simpl; lia.
  - simpl; lia.
  - vm_compute. reflexivity.
Defined.

(** ** The presence store *)

Section Store_properties.
Context {R : Runtime}.

Lemma jsonable_ints (ids : list Z) :
  jsonable <$> (PInt <$> ids) = PInt <$> ids.
Proof. rewrite <- list_fmap_compose. now apply list_fmap_ext. Qed.

Lemma jsonable_model_dump (state : BotState) :
  jsonable (PDict (model_dump state))
  = PDict (<["afk_message" := PStr (afk_message state)]>
          (<["notified_ids" := PList (PInt <$> notified_ids state)]>
          (<["is_afk" := PBool (is_afk state)]>
          (<["afk_start_time" := PStr (datetime_str (afk_start_time state))]> ∅)))).
Proof.
  change (jsonable (PDict (model_dump state)))
    with (PDict (jsonable <$> model_dump state)).
  unfold model_dump. rewrite !fmap_insert, fmap_empty.
  change (jsonable (PList (PInt <$> notified_ids state)))
    with (PList (jsonable <$> (PInt <$> notified_ids state))).
  now rewrite jsonable_ints.
Qed.

Lemma validate_ints (ids : list Z) :
  validate_list_int (PList (PInt <$> ids)) = Some ids.
Proof. unfold validate_list_int. now apply mapM_fmap_Some. Qed.

Lemma BotState_new_empty (now : clock) :
  BotState_new now ∅ = Some (default_state now).
Proof. reflexivity. Qed.

(** [load_state], case by case on the file. *)
Lemma load_state_cases (now : clock) (w : world) :
  load_state now w =
  match db w with
  | Absent =>
      (Return (default_state now),
       add_log (mk_log_record WARNING (Failed_to_load_state FileNotFoundError)) w)
  | Unreadable =>
      (Return (default_state now),
       add_log (mk_log_record WARNING (Failed_to_load_state JSONDecodeError)) w)
  | Document (PDict data) =>
      match BotState_new now (convert_start_time now data) with
      | Some state => (Return state, w)
      | None =>
          (Return (default_state now),
           add_log (mk_log_record WARNING (Failed_to_load_state ValidationError)) w)
      end
  | Document _ => (Raise TypeError, w)
  | Inaccessible e =>
      if load_state_catches e
      then (Return (default_state now),
            add_log (mk_log_record WARNING (Failed_to_load_state e)) w)
      else (Raise e, w)
  end.
Proof.
  unfold load_state, try_except, load_state_try, read_db, BotState_init.
  unfold mbind, M_bind, raise.
  destruct (db w) as [| |[| b | n | x | s | items | data | dt] | e]; try reflexivity.
  - destruct (BotState_new now (convert_start_time now data)); reflexivity.
  - destruct (load_state_catches e); reflexivity.
Qed.

Lemma load_state_saved (now : clock) (state : BotState) (w : world) :
  db w = saved state -> load_state now w = (Return (reloaded now state), w).
Proof.
  intros Hdb. rewrite load_state_cases, Hdb. unfold saved.
  rewrite jsonable_model_dump.
  assert (Hnew : forall dt,
    BotState_new now
      (<["afk_start_time" := PDatetime dt]>
        (<["afk_message" := PStr (afk_message state)]>
        (<["notified_ids" := PList (PInt <$> notified_ids state)]>
        (<["is_afk" := PBool (is_afk state)]>
        (<["afk_start_time" := PStr (datetime_str (afk_start_time state))]> ∅)))))
    = Some (mk_BotState (afk_message state) (notified_ids state) (is_afk state) dt)).
  { intros dt. unfold BotState_new, field.
    simplify_map_eq.
    change (mapM validate_int (PInt <$> notified_ids state))
      with (validate_list_int (PList (PInt <$> notified_ids state))).
    rewrite validate_ints. reflexivity. }
  unfold convert_start_time.
  simplify_map_eq.
  unfold reloaded.
  destruct (fromisoformat (datetime_str (afk_start_time state)));
    now rewrite Hnew.
Qed.

Lemma load_state_frame (now : clock) (w w1 : world) (r : outcome BotState) :
  load_state now w = (r, w1) ->
  db w1 = db w /\ db_writable w1 = db_writable w /\ outbox w1 = outbox w.
Proof.
  rewrite load_state_cases. intros Hload.
  destruct (db w) as [| |[| b | n | x | s | items | data | dt] | e] eqn:Hdb;
    try (inversion Hload; subst; now simpl).
  - destruct (BotState_new now (convert_start_time now data));
      inversion Hload; subst; now simpl.
  - destruct (load_state_catches e); inversion Hload; subst; now simpl.
Qed.

(** The outcome of [load_state] depends on the file only. *)
Lemma load_state_db (now : clock) (w w' : world) :
  db w = db w' -> fst (load_state now w) = fst (load_state now w').
Proof.
  intros Hdb. rewrite !load_state_cases, <- Hdb.
  destruct (db w) as [| |[| b | n | x | s | items | data | dt] | e]; try reflexivity.
  - destruct (BotState_new now (convert_start_time now data)); reflexivity.
  - destruct (load_state_catches e); reflexivity.
Qed.

Lemma save_state_cases (state : BotState) (w : world) :
  save_state state w =
  if db_writable w then (Return tt, set_db (saved state) w)
  else (Raise PermissionError, w).
Proof. reflexivity. Qed.

(** A state whose start time [fromisoformat] reads back from its printed
    form is the state that [load_state] returns after [save_state]. *)
Lemma save_then_load (now : clock) (state : BotState) (w : world) :
  fromisoformat (datetime_str (afk_start_time state)) = Some (afk_start_time state) ->
  db_writable w = true ->
  exists w' loaded,
    save_state state w = (Return tt, w')
    /\ load_state now w' = (Return loaded, w')
    /\ loaded = state
    /\ equivalent_states state loaded.
Proof.
  intros Hback Hw.
  exists (set_db (saved state) w), state.
  rewrite save_state_cases, Hw. split; [reflexivity |].
  split; [| split; [reflexivity | now repeat split]].
  rewrite (load_state_saved now state) by reflexivity.
  unfold reloaded. rewrite Hback. now destruct state.
Qed.

End Store_properties.

(** The parser of CPython reads back every datetime whose offset is a
    whole number of seconds. *)
Lemma c_fromisoformat_datetime_str (dt : datetime) :
  datetime_ok dt -> whole_second_offset dt ->
  c_fromisoformat (datetime_str dt) = Some dt.
Proof.
  intros Hok Hwhole. unfold c_fromisoformat.
  rewrite (parse_isoformat_datetime_str dt Hok). cbn [mbind option_bind].
  destruct dt as [c [off |]]; [| reflexivity].
  cbn [utcoffset fields]. f_equal.
  destruct (Z.abs (total_microseconds off) <? 1000000) eqn:Hsmall; [| reflexivity].
  apply Z.ltb_lt in Hsmall.
  destruct Hok as [_ [[Hs Hus] _]]. cbn [utcoffset] in Hs, Hus.
  unfold whole_second_offset in Hwhole. cbn [utcoffset] in Hwhole.
  destruct off as [d sec us]. unfold total_microseconds in Hsmall.
  cbn [td_days td_seconds td_microseconds] in *. subst us.
  assert (d = 0) by lia. assert (sec = 0) by lia. now subst.
Qed.

(** C3. Round-trip, for the states whose start time [fromisoformat] reads
    back from the string that [str] prints for it: [save_state] followed
    by [load_state] returns the state that was saved, the very same
    message, list of notified identifiers, [is_afk] flag and start time,
    microseconds included; it is in particular equivalent to it in the
    sense of the specification. The store is writable. The parser of
    CPython reads back the start time of every valid state whose offset
    from UTC is absent or a whole number of seconds, so that the round
    trip holds of each of these. *)
Theorem save_load_roundtrip :
  (forall (R : Runtime) (now : clock) (state : BotState) (w : world),
     fromisoformat (datetime_str (afk_start_time state)) = Some (afk_start_time state) ->
     db_writable w = true ->
     exists w' loaded,
       save_state state w = (Return tt, w')
       /\ load_state now w' = (Return loaded, w')
       /\ loaded = state
       /\ equivalent_states state loaded)
  /\ (forall (now : clock) (state : BotState) (w : world),
        datetime_ok (afk_start_time state) ->
        whole_second_offset (afk_start_time state) ->
        db_writable w = true ->
        exists w' loaded,
          save_state state w = (Return tt, w')
          /\ load_state (R := cpython_runtime) now w' = (Return loaded, w')
          /\ loaded = state
          /\ equivalent_states state loaded).
Proof.
  split.
  - intros R now state w. apply save_then_load.
  - intros now state w Hok Hwhole.
    apply (save_then_load (R := cpython_runtime)).
    now apply c_fromisoformat_datetime_str.
Qed.

(** ** The presence controller *)

Section Controller_properties.
Context {R : Runtime}.

Ltac unfold_M :=
  unfold mbind, M_bind, mret, M_ret, raise, of_outcome, logger, event_edit,
    event_reply.

Lemma BotState_init_activate (now : clock) (message : string) (w : world) :
  BotState_init now (<["afk_message" := PStr message]> (<["is_afk" := PBool true]> ∅)) w
  = (Return (activated_state now message), w).
Proof.
  unfold BotState_init, BotState_new, field. simplify_map_eq. reflexivity.
Qed.

Lemma start_afk_handler_cases (now : clock) (group1 : string) (w : world) :
  start_afk_handler now group1 w =
  if db_writable w then
    (Return tt,
     add_directive (Edit (activation_text (strip group1)))
       (add_log (mk_log_record INFO (Afk_activated (strip group1)))
          (set_db (saved (activated_state now (strip group1))) w)))
  else (Raise PermissionError, w).
Proof.
  unfold start_afk_handler. cbv zeta. unfold mbind at 1. unfold M_bind at 1.
  rewrite BotState_init_activate.
  unfold mbind, M_bind. rewrite save_state_cases.
  destruct (db_writable w); [| reflexivity].
  unfold logger, event_edit, activation_text.
  destruct (nonempty (strip group1)); reflexivity.
Qed.

Lemma start_unafk_handler_cases (now : clock) (w w1 : world) (state : BotState) :
  load_state now w = (Return state, w1) ->
  start_unafk_handler now w =
  if is_afk state then
    if db_writable w then
      match datetime_sub (datetime_now now) (afk_start_time state) with
      | Return elapsed =>
          (Return tt,
           add_directive (Edit (deactivation_text elapsed))
             (add_log (mk_log_record INFO (Afk_deactivated elapsed))
                (set_db (saved (set_is_afk false state)) w1)))
      | Raise e => (Raise e, set_db (saved (set_is_afk false state)) w1)
      end
    else (Raise PermissionError, w1)
  else
    (Return tt,
     add_directive (Edit "**AFK mode was not active**")
       (add_log (mk_log_record WARNING Afk_was_not_active) w1)).
Proof.
  intros Hload. destruct (load_state_frame _ _ _ _ Hload) as (_ & Hw & _).
  unfold start_unafk_handler. unfold mbind at 1. unfold M_bind at 1.
  rewrite Hload. destruct (is_afk state); [| reflexivity].
  cbv zeta. unfold mbind at 1. unfold M_bind at 1.
  rewrite save_state_cases, Hw.
  destruct (db_writable w); [| reflexivity].
  unfold_M.
  change (afk_start_time (set_is_afk false state)) with (afk_start_time state).
  destruct (datetime_sub (datetime_now now) (afk_start_time state)); reflexivity.
Qed.

Lemma handle_private_message_cases
    (now : clock) (user_id sender_id : Z) (w w1 : world) (state : BotState) :
  load_state now w = (Return state, w1) ->
  handle_private_message now (PeerUser user_id) sender_id w =
  if negb (is_afk state) then
    (Return tt, add_log (mk_log_record DEBUG (No_reply_inactive sender_id)) w1)
  else if bool_decide (sender_id ∈ notified_ids state) then
    (Return tt, add_log (mk_log_record DEBUG (Already_notified sender_id)) w1)
  else if db_writable w then
    match datetime_sub (datetime_now now) (afk_start_time state) with
    | Return elapsed =>
        (Return tt,
         add_directive
           (Reply (PeerUser user_id) (notification_text (afk_message state) elapsed))
           (add_log (mk_log_record INFO (Sent_notification sender_id))
              (set_db (saved (append_notified_id sender_id state)) w1)))
    | Raise e => (Raise e, set_db (saved (append_notified_id sender_id state)) w1)
    end
  else (Raise PermissionError, w1).
Proof.
  intros Hload. destruct (load_state_frame _ _ _ _ Hload) as (_ & Hw & _).
  unfold handle_private_message. cbn [is_PeerUser negb].
  unfold mbind at 1. unfold M_bind at 1. rewrite Hload.
  destruct (is_afk state); [| reflexivity]. cbn [negb].
  destruct (bool_decide (sender_id ∈ notified_ids state)); [reflexivity |].
  cbv zeta. unfold mbind at 1. unfold M_bind at 1.
  rewrite save_state_cases, Hw.
  destruct (db_writable w); [| reflexivity].
  unfold_M. cbn [afk_start_time afk_message append_notified_id].
  destruct (datetime_sub (datetime_now now) (afk_start_time state)); [| reflexivity].
  unfold notification_text.
  destruct (nonempty (afk_message state)); reflexivity.
Qed.

Lemma handler_load_raises (now : clock) (w w1 : world) (e : exn) :
  load_state now w = (Raise e, w1) ->
  start_unafk_handler now w = (Raise e, w1)
  /\ forall user_id sender_id,
       handle_private_message now (PeerUser user_id) sender_id w = (Raise e, w1).
Proof.
  intros Hload. split; [| intros user_id sender_id].
  - unfold start_unafk_handler, mbind, M_bind. now rewrite Hload.
  - unfold handle_private_message. cbn [is_PeerUser negb].
    unfold mbind, M_bind. now rewrite Hload.
Qed.

Ltac unchanged := split; [| left]; solve [assumption | reflexivity].

(** Every write of a handler: the store is left as it was, or it holds
    the record of a state that the handler built in one of three ways. *)
Lemma step_db (w : world) (now : clock) (ev : event) :
  db_writable (step w (now, ev)) = db_writable w
  /\ (db (step w (now, ev)) = db w
      \/ (exists group1,
            ev = AfkCommand group1
            /\ db (step w (now, ev)) = saved (activated_state now (strip group1)))
      \/ (exists state w1,
            ev = UnafkCommand
            /\ load_state now w = (Return state, w1) /\ is_afk state = true
            /\ db (step w (now, ev)) = saved (set_is_afk false state))
      \/ (exists state w1 user_id sender_id,
            ev = IncomingMessage (PeerUser user_id) sender_id
            /\ load_state now w = (Return state, w1) /\ is_afk state = true
            /\ (sender_id ∉ notified_ids state)
            /\ db (step w (now, ev)) = saved (append_notified_id sender_id state))).
Proof.
  destruct ev as [group1 | | peer_id sender_id]; unfold step; cbn [fst snd handle].
  - rewrite start_afk_handler_cases.
    destruct (db_writable w) eqn:Hw; [| unchanged].
    split; [exact Hw |]. right; left. now exists group1.
  - destruct (load_state now w) as [[state | e] w1] eqn:Hload;
      destruct (load_state_frame _ _ _ _ Hload) as (Hdb & Hw1 & _).
    + rewrite (start_unafk_handler_cases _ _ _ _ Hload).
      destruct (is_afk state) eqn:Hafk; [| unchanged].
      destruct (db_writable w) eqn:Hw; [| unchanged].
      destruct (datetime_sub (datetime_now now) (afk_start_time state));
        (split; [exact Hw1 |]); right; right; left; now exists state, w1.
    + rewrite (proj1 (handler_load_raises _ _ _ _ Hload)). unchanged.
  - destruct peer_id as [user_id | chat_id | channel_id]; try unchanged.
    destruct (load_state now w) as [[state | e] w1] eqn:Hload;
      destruct (load_state_frame _ _ _ _ Hload) as (Hdb & Hw1 & _).
    + rewrite (handle_private_message_cases _ _ _ _ _ _ Hload).
      destruct (is_afk state) eqn:Hafk; [| unchanged]. cbn [negb].
      destruct (bool_decide (sender_id ∈ notified_ids state)) eqn:Hin; [unchanged |].
      apply bool_decide_eq_false in Hin.
      destruct (db_writable w) eqn:Hw; [| unchanged].
      destruct (datetime_sub (datetime_now now) (afk_start_time state));
        (split; [exact Hw1 |]); right; right; right;
        now exists state, w1, user_id, sender_id.
    + rewrite (proj2 (handler_load_raises _ _ _ _ Hload)). unchanged.
Qed.

Lemma run_snoc (events : list (clock * event)) (te : clock * event) (w : world) :
  run (events ++ [te]) w = step (run events w) te.
Proof. unfold run. now rewrite foldl_app. Qed.

Lemma run_writable (events : list (clock * event)) (w : world) :
  db_writable (run events w) = db_writable w.
Proof.
  revert w. induction events as [| [now ev] events IH]; intros w; [reflexivity |].
  change (run ((now, ev) :: events) w) with (run events (step w (now, ev))).
  rewrite IH. apply step_db.
Qed.

(** C2. Session reset on activation: whatever the store holds (an active
    session with notified correspondents included), the handler of the
    [.afk] command, with a writable store, persists a record built from
    scratch: active, with the message of the command (its group 1,
    stripped), started at the clock reading, nobody notified. Reading it
    back gives that message, an empty list and the active flag, and the
    very state when [fromisoformat] inverts [str]. Consequently, after
    [.afk m1], a private message of a sender (who is then recorded as
    notified), [.unafk] and [.afk m2], the stored state has an empty list
    of notified identifiers and the message of the second command. *)
Theorem activate_resets_session (now : clock) (group1 : string) (w : world) :
  db_writable w = true ->
  let w' := snd (start_afk_handler now group1 w) in
  fst (start_afk_handler now group1 w) = Return tt
  /\ db w' = saved (activated_state now (strip group1))
  /\ (forall later, exists loaded,
        load_state later w' = (Return loaded, w')
        /\ afk_message loaded = strip group1
        /\ notified_ids loaded = []
        /\ is_afk loaded = true
        /\ (inverts_str R -> clock_ok now -> loaded = activated_state now (strip group1)))
  /\ (forall t1 m1 t2 user_id sender_id t3 t4 m2 later,
        let first_two :=
          [(t1, AfkCommand m1); (t2, IncomingMessage (PeerUser user_id) sender_id)] in
        let last_two := [(t3, UnafkCommand); (t4, AfkCommand m2)] in
        let middle := run first_two w in
        let final := run (first_two ++ last_two) w in
        (exists loaded, load_state later middle = (Return loaded, middle)
                        /\ notified_ids loaded = [sender_id])
        /\ db final = saved (activated_state t4 (strip m2))
        /\ (exists loaded, load_state later final = (Return loaded, final)
                           /\ notified_ids loaded = []
                           /\ afk_message loaded = strip m2)).
Proof.
  intros Hw.
  assert (Hone : forall now group1 w later,
    db_writable w = true ->
    let w' := snd (start_afk_handler now group1 w) in
    fst (start_afk_handler now group1 w) = Return tt
    /\ db w' = saved (activated_state now (strip group1))
    /\ exists loaded,
        load_state later w' = (Return loaded, w')
        /\ afk_message loaded = strip group1
        /\ notified_ids loaded = []
        /\ is_afk loaded = true
        /\ (inverts_str R -> clock_ok now -> loaded = activated_state now (strip group1))).
  { clear. intros now group1 w later Hw. cbv zeta.
    rewrite start_afk_handler_cases, Hw. cbn [fst snd].
    split; [reflexivity |]. split; [reflexivity |].
    eexists. split; [apply load_state_saved; reflexivity |].
    repeat split. intros Hinv [Hc Hoff]. unfold reloaded.
    rewrite Hinv; [reflexivity |]. now split. }
  cbv zeta.
  destruct (Hone now group1 w now Hw) as (Hret & Hdb & _).
  split; [exact Hret |]. split; [exact Hdb |].
  split; [intros later; apply (Hone now group1 w later Hw) |].
  intros t1 m1 t2 user_id sender_id t3 t4 m2 later.
  assert (Hmiddle :
    db (run [(t1, AfkCommand m1); (t2, IncomingMessage (PeerUser user_id) sender_id)] w)
    = saved (append_notified_id sender_id (reloaded t2 (activated_state t1 (strip m1))))).
  { change (run [(t1, AfkCommand m1); (t2, IncomingMessage (PeerUser user_id) sender_id)] w)
      with (step (step w (t1, AfkCommand m1))
                 (t2, IncomingMessage (PeerUser user_id) sender_id)).
    set (w1 := step w (t1, AfkCommand m1)).
    assert (Hw1 : db_writable w1 = true) by (unfold w1; now rewrite (proj1 (step_db _ _ _))).
    assert (Hdb1 : db w1 = saved (activated_state t1 (strip m1))).
    { unfold w1, step. cbn [fst snd handle].
      now rewrite start_afk_handler_cases, Hw. }
    unfold step. cbn [fst snd handle].
    rewrite (handle_private_message_cases _ _ _ _ _ _ (load_state_saved t2 _ _ Hdb1)).
    cbn [is_afk reloaded activated_state negb notified_ids].
    rewrite bool_decide_eq_false_2 by apply not_elem_of_nil.
    rewrite Hw1.
    destruct (datetime_sub _ _); reflexivity. }
  split.
  - eexists. split; [apply load_state_saved, Hmiddle | reflexivity].
  - change (run (?a ++ [?c; ?d]) w) with (run ((a ++ [c]) ++ [d]) w).
    rewrite !run_snoc.
    set (w3 := step _ (t3, UnafkCommand)).
    assert (Hw3 : db_writable w3 = true).
    { unfold w3. now rewrite (proj1 (step_db _ _ _)), run_writable. }
    destruct (Hone t4 m2 w3 later Hw3) as (_ & Hdb4 & loaded & Hload & Hmsg & Hids & _).
    split; [exact Hdb4 |]. exists loaded. now repeat split.
Qed.

(** C9. Non-private messages are inert: for an incoming message whose
    peer is not a user (a group or a channel), the handler returns at
    once and leaves the world exactly as it was: the state file is not
    read (nothing is logged, nothing can be raised), it is not written, and
    no directive is issued, whatever the stored state and the sender. *)
Theorem non_private_message_inert
    (now : clock) (peer_id : peer) (sender_id : Z) (w : world) :
  is_PeerUser peer_id = false ->
  handle now (IncomingMessage peer_id sender_id) w = (Return tt, w)
  /\ step w (now, IncomingMessage peer_id sender_id) = w.
Proof.
  intros Hpeer. unfold step. cbn [fst snd handle].
  unfold handle_private_message. now rewrite Hpeer.
Qed.


(** A start time that carries an offset can always be subtracted from a
    clock reading. *)
Lemma datetime_sub_aware (now : clock) (start : datetime) :
  utcoffset start <> None ->
  exists elapsed, datetime_sub (datetime_now now) start = Return elapsed.
Proof.
  unfold datetime_sub. cbn [utcoffset datetime_now].
  destruct (utcoffset start); [eauto | congruence].
Qed.

(** C8. Reply contingent on persistence: when the state file cannot be
    written, each of the three handlers that write it raises the error of
    the write, and issues no directive: the [.afk] command; the [.unafk]
    command when the loaded state is active; a private message when the
    loaded state is active and the sender is not yet notified. The file
    is as it was. *)
Theorem reply_contingent_on_persistence (now : clock) (w : world) :
  db_writable w = false ->
  (forall group1, start_afk_handler now group1 w = (Raise PermissionError, w))
  /\ (forall state w1,
        load_state now w = (Return state, w1) ->
        is_afk state = true ->
        start_unafk_handler now w = (Raise PermissionError, w1)
        /\ outbox w1 = outbox w /\ db w1 = db w)
  /\ (forall state w1 user_id sender_id,
        load_state now w = (Return state, w1) ->
        is_afk state = true ->
        sender_id ∉ notified_ids state ->
        handle_private_message now (PeerUser user_id) sender_id w
        = (Raise PermissionError, w1)
        /\ outbox w1 = outbox w /\ db w1 = db w).
Proof.
  intros Hw. split; [| split].
  - intros group1. now rewrite start_afk_handler_cases, Hw.
  - intros state w1 Hload Hafk.
    destruct (load_state_frame _ _ _ _ Hload) as (Hdb & _ & Hout).
    now rewrite (start_unafk_handler_cases _ _ _ _ Hload), Hafk, Hw.
  - intros state w1 user_id sender_id Hload Hafk Hnew.
    destruct (load_state_frame _ _ _ _ Hload) as (Hdb & _ & Hout).
    rewrite (handle_private_message_cases _ _ _ _ _ _ Hload), Hafk, Hw.
    cbn [negb]. now rewrite bool_decide_eq_false_2.
Qed.



(** C7, as amended. Field-granular timestamp recovery: when the stored
    record is an object whose [afk_start_time] is a string that
    [fromisoformat] rejects, and whose other fields pass validation (or
    are absent and take their defaults), [load_state] returns those fields
    as stored, with the clock reading as start time. The world is left as
    it was: the replacement is not logged. *)
Theorem unparsable_start_time_replaced
    (now : clock) (w : world) (data : gmap string pyval) (s message : string)
    (ids : list Z) (active : bool) :
  db w = Document (PDict data) ->
  data !! "afk_start_time" = Some (PStr s) ->
  fromisoformat s = None ->
  field data "afk_message" validate_str "" = Some message ->
  field data "notified_ids" validate_list_int [] = Some ids ->
  field data "is_afk" validate_bool false = Some active ->
  load_state now w = (Return (mk_BotState message ids active (datetime_now now)), w).
Proof.
  intros Hdb Hstart Hparse Hm Hids Ha.
  rewrite load_state_cases, Hdb. unfold convert_start_time.
  rewrite Hstart, Hparse.
  unfold BotState_new, field in *.
  rewrite (lookup_insert_ne _ "afk_start_time" "afk_message") by done.
  rewrite (lookup_insert_ne _ "afk_start_time" "notified_ids") by done.
  rewrite (lookup_insert_ne _ "afk_start_time" "is_afk") by done.
  rewrite lookup_insert_eq.
  rewrite Hm. cbn [mbind option_bind]. rewrite Hids. cbn [mbind option_bind].
  rewrite Ha. reflexivity.
Qed.

(** The part of C4 that holds: a missing file, a content that is not JSON
    and an object that fails validation give the default state, started
    at the clock reading, and one warning in the log. *)
Lemma load_state_default (now : clock) (w : world) :
  db w = Absent \/ db w = Unreadable
  \/ (exists data, db w = Document (PDict data)
                   /\ BotState_new now (convert_start_time now data) = None) ->
  exists e,
    load_state now w
    = (Return (default_state now),
       add_log (mk_log_record WARNING (Failed_to_load_state e)) w).
Proof.
  rewrite load_state_cases.
  intros [-> | [-> | (data & -> & ->)]]; eauto.
Qed.

(** C4, where the code departs from it. A state file that holds a JSON
    document other than an object (a list, a string, a number, [true],
    [false] or [null]) makes [load_state] raise [TypeError]: no default
    state is returned and nothing is logged. *)
Theorem load_state_not_an_object (now : clock) (w : world) (v : pyval) :
  db w = Document v ->
  (forall data, v <> PDict data) ->
  load_state now w = (Raise TypeError, w).
Proof.
  intros Hdb Hv. rewrite load_state_cases, Hdb.
  destruct v; try reflexivity. now destruct (Hv entries).
Qed.

Lemma duplicate_free_db (w w' : world) :
  db w = db w' -> duplicate_free w -> duplicate_free w'.
Proof.
  intros Hdb Hfree now state w1 Hload.
  pose proof (load_state_db now w w' Hdb) as Hfst. rewrite Hload in Hfst.
  destruct (load_state now w) as [r w2] eqn:Hw. simpl in Hfst. subst r.
  exact (Hfree now state w2 Hw).
Qed.

Lemma duplicate_free_saved (state : BotState) (w : world) :
  db w = saved state -> NoDup (notified_ids state) -> duplicate_free w.
Proof.
  intros Hdb Hnodup now loaded w1 Hload.
  rewrite (load_state_saved now state w Hdb) in Hload.
  inversion Hload; subst. exact Hnodup.
Qed.

Lemma step_duplicate_free (w : world) (te : clock * event) :
  duplicate_free w -> duplicate_free (step w te).
Proof.
  destruct te as [now ev]. intros Hfree.
  destruct (step_db w now ev) as (_ & [Hdb | [Hact | [Hun | Hmsg]]]).
  - now apply (duplicate_free_db w).
  - destruct Hact as (group1 & _ & Hdb).
    apply (duplicate_free_saved _ _ Hdb). constructor.
  - destruct Hun as (state & w1 & _ & Hload & _ & Hdb).
    apply (duplicate_free_saved _ _ Hdb). exact (Hfree _ _ _ Hload).
  - destruct Hmsg as (state & w1 & user_id & sender_id & _ & Hload & _ & Hnew & Hdb).
    apply (duplicate_free_saved _ _ Hdb). cbn [notified_ids append_notified_id].
    apply NoDup_app. split; [exact (Hfree _ _ _ Hload) |].
    split; [| apply NoDup_singleton].
    intros id Hid Hin. apply list_elem_of_singleton in Hin. now subst id.
Qed.

(** C10. Duplicate-free list of notified identifiers: when the state that
    the store holds has no duplicate, then after every sequence of events,
    handled one after the other, it has none either, and so after every
    prefix of the sequence: every record that a handler writes on the way
    has a duplicate-free list. *)
Theorem notified_ids_duplicate_free (events : list (clock * event)) (w : world) :
  duplicate_free w ->
  duplicate_free (run events w)
  /\ forall k, duplicate_free (run (take k events) w).
Proof.
  assert (Hrun : forall events w, duplicate_free w -> duplicate_free (run events w)).
  { clear. induction events as [| te events IH]; intros w Hfree; [exact Hfree |].
    change (run (te :: events) w) with (run events (step w te)).
    now apply IH, step_duplicate_free. }
  intros Hfree. split; [| intros k]; now apply Hrun.
Qed.

End Controller_properties.

(** ** The properties at sample inputs, with the reference runtime *)

Lemma busy_since_nine_ok : datetime_ok (afk_start_time busy_since_nine).
Proof. repeat split; vm_compute; first [discriminate | reflexivity]. Defined.



Lemma activate_resets_session_witness :
  db (snd (start_afk_handler (R := strict_runtime) noon "  writing "
             (store_of (saved busy_since_nine) true)))
  = saved (activated_state noon "writing").
Proof.
  refine (proj1 (proj2
    (activate_resets_session (R := strict_runtime) noon "  writing "
       (store_of (saved busy_since_nine) true) _))).
  reflexivity.
Defined.

Lemma save_load_roundtrip_witness :
  exists w' loaded,
    save_state busy_since_nine (store_of Absent true) = (Return tt, w')
    /\ load_state (R := cpython_runtime) afternoon w' = (Return loaded, w')
    /\ loaded = busy_since_nine
    /\ equivalent_states busy_since_nine loaded.
Proof.
  refine (proj2 save_load_roundtrip afternoon busy_since_nine
            (store_of Absent true) busy_since_nine_ok _ _).
  - reflexivity.
  - reflexivity.
Defined.

(** C3, a state at which the claim as stated fails: a valid state whose
    start time is one microsecond east of UTC. The string that [str]
    prints for it ends in [+00:00:00.000001], the parser of CPython reads
    it as UTC, and the state that comes back starts one microsecond
    later, in another second. *)
Lemma roundtrip_loses_the_offset :
  datetime_ok (afk_start_time busy_off_by_a_microsecond)
  /\ exists w' loaded,
       save_state busy_off_by_a_microsecond (store_of Absent true) = (Return tt, w')
       /\ load_state (R := cpython_runtime) afternoon w' = (Return loaded, w')
       /\ afk_start_time loaded = utc 2024 1 1 9 0 0
       /\ (equivalent_states busy_off_by_a_microsecond loaded -> False).
Proof.
  split; [repeat split; vm_compute; first [discriminate | reflexivity] |].
  eexists. exists (mk_BotState "busy" [7] true (utc 2024 1 1 9 0 0)).
  split; [reflexivity |]. split; [vm_compute; reflexivity |].
  split; [reflexivity |].
  intros (_ & _ & _ & Hstart). discriminate Hstart.
Qed.

(** C4 at the failing input: the state file holds an empty JSON array. *)
Lemma load_state_not_an_object_witness :
  load_state (R := strict_runtime) noon (store_of (Document (PList [])) true)
  = (Raise TypeError, store_of (Document (PList [])) true).
Proof.
  refine (load_state_not_an_object (R := strict_runtime) noon
            (store_of (Document (PList [])) true) (PList []) _ _).
  - reflexivity.
  - discriminate.
Defined.


(** C7, where the claim as stated fails. When the start time of the
    stored record is the string "yesterday", it is replaced by the clock
    reading and the other fields are kept, but the log stays empty. When
    it is [null], the whole record is given up for the default state. *)
Lemma unparsable_start_time_not_logged :
  load_state (R := strict_runtime) noon (store_of (Document (PDict started_yesterday)) true)
  = (Return (mk_BotState "busy" [7] true (datetime_now noon)),
     store_of (Document (PDict started_yesterday)) true)
  /\ journal (snd (load_state (R := strict_runtime) noon
                     (store_of (Document (PDict started_yesterday)) true))) = []
  /\ load_state (R := strict_runtime) noon (store_of (Document (PDict started_null)) true)
     = (Return (default_state noon),
        add_log (mk_log_record WARNING (Failed_to_load_state ValidationError))
          (store_of (Document (PDict started_null)) true)).
Proof. vm_compute. repeat split. Qed.

Lemma unparsable_start_time_replaced_witness :
  load_state (R := strict_runtime) afternoon
    (store_of (Document (PDict started_yesterday)) false)
  = (Return (mk_BotState "busy" [7] true (datetime_now afternoon)),
     store_of (Document (PDict started_yesterday)) false).
Proof.
  refine (unparsable_start_time_replaced (R := strict_runtime) afternoon
            (store_of (Document (PDict started_yesterday)) false)
            started_yesterday "yesterday" "busy" [7] true _ _ _ _ _ _);
    reflexivity.
Defined.

Lemma reply_contingent_on_persistence_witness :
  start_afk_handler (R := strict_runtime) noon "back at five" (store_of Absent false)
  = (Raise PermissionError, store_of Absent false).
Proof.
  refine (proj1
    (reply_contingent_on_persistence (R := strict_runtime) noon (store_of Absent false) _)
    "back at five").
  reflexivity.
Defined.

(** A message of correspondent 8 in group chat 5, during an active session
    in which 8 is not yet notified. *)
Lemma non_private_message_inert_witness :
  handle (R := strict_runtime) noon (IncomingMessage (PeerChat 5) 8)
    (store_of (saved busy_since_nine) true)
  = (Return tt, store_of (saved busy_since_nine) true)
  /\ step (R := strict_runtime) (store_of (saved busy_since_nine) true)
       (noon, IncomingMessage (PeerChat 5) 8)
     = store_of (saved busy_since_nine) true.
Proof.
  refine (non_private_message_inert (R := strict_runtime) noon (PeerChat 5) 8
            (store_of (saved busy_since_nine) true) _).
  reflexivity.
Defined.

Lemma fresh_store_duplicate_free :
  duplicate_free (R := strict_runtime) (store_of Absent true).
Proof.
  intros now state w1 Hload. rewrite load_state_cases in Hload. simpl in Hload.
  inversion Hload; subst. constructor.
Defined.

(** From a fresh store: a session, two correspondents who each write
    twice, and the end of the session. *)
Lemma notified_ids_duplicate_free_witness :
  NoDup [7; 8]
  /\ fst (load_state (R := strict_runtime) afternoon
            (run (R := strict_runtime)
               [(noon, AfkCommand "busy");
                (noon, IncomingMessage (PeerUser 7) 7);
                (noon, IncomingMessage (PeerUser 8) 8);
                (afternoon, IncomingMessage (PeerUser 7) 7);
                (afternoon, IncomingMessage (PeerUser 8) 8);
                (afternoon, UnafkCommand)]
               (store_of Absent true)))
     = Return (mk_BotState "busy" [7; 8] false (datetime_now noon)).
Proof.
  split; [| vm_compute; reflexivity].
  refine (proj1
    (notified_ids_duplicate_free (R := strict_runtime)
       [(noon, AfkCommand "busy");
        (noon, IncomingMessage (PeerUser 7) 7);
        (noon, IncomingMessage (PeerUser 8) 8);
        (afternoon, IncomingMessage (PeerUser 7) 7);
        (afternoon, IncomingMessage (PeerUser 8) 8);
        (afternoon, UnafkCommand)]
       (store_of Absent true) fresh_store_duplicate_free)
    afternoon (mk_BotState "busy" [7; 8] false (datetime_now noon))
    (run (R := strict_runtime)
       [(noon, AfkCommand "busy");
        (noon, IncomingMessage (PeerUser 7) 7);
        (noon, IncomingMessage (PeerUser 8) 8);
        (afternoon, IncomingMessage (PeerUser 7) 7);
        (afternoon, IncomingMessage (PeerUser 8) 8);
        (afternoon, UnafkCommand)]
       (store_of Absent true)) _).
  vm_compute. reflexivity.
Defined.

(** * Further properties of the code *)

(** ** The duration formatter, beyond its contract *)

Lemma units_of_whole_minutes (s : Z) :
  0 <= s ->
  s / 86400 = s / 60 / 1440
  /\ (s mod 86400) / 3600 = (s / 60) mod 1440 / 60
  /\ ((s mod 86400) mod 3600) / 60 = (s / 60) mod 60.
Proof.
  intros Hs.
  pose proof (Z.div_mod s 60 ltac:(lia)).
  pose proof (Z.mod_pos_bound s 60 ltac:(lia)).
  pose proof (Z.div_mod (s / 60) 1440 ltac:(lia)).
  pose proof (Z.mod_pos_bound (s / 60) 1440 ltac:(lia)).
  pose proof (Z.div_mod ((s / 60) mod 1440) 60 ltac:(lia)).
  pose proof (Z.mod_pos_bound ((s / 60) mod 1440) 60 ltac:(lia)).
  set (M := s / 60) in *. set (D := M / 1440) in *. set (M' := M mod 1440) in *.
  assert (Hd : s / 86400 = D)
    by (symmetry; apply Z.div_unique with (r := 60 * M' + s mod 60); lia).
  assert (Hr : s mod 86400 = 60 * M' + s mod 60)
    by (symmetry; apply Z.mod_unique with (q := D); lia).
  rewrite Hd, Hr. split; [reflexivity |].
  assert (Hh : (60 * M' + s mod 60) / 3600 = M' / 60)
    by (symmetry; apply Z.div_unique with (r := 60 * (M' mod 60) + s mod 60); lia).
  assert (Hr' : (60 * M' + s mod 60) mod 3600 = 60 * (M' mod 60) + s mod 60)
    by (symmetry; apply Z.mod_unique with (q := M' / 60); lia).
  rewrite Hh, Hr'. split; [reflexivity |].
  assert (Hm : M mod 60 = M' mod 60).
  { unfold M'. rewrite <- (Z.mod_mod_divide M 1440 60) at 1 by (exists 24; lia).
    reflexivity. }
  rewrite Hm. symmetry. apply Z.div_unique with (r := s mod 60); lia.
Qed.

(** X1. Below 2^34 seconds the label of a non-negative span depends on
    its whole minutes only: two non-negative spans shorter than 2^34
    seconds with the same number of whole minutes have the same label,
    whatever their seconds and microseconds. *)
Theorem format_duration_whole_minutes (a b : timedelta) :
  timedelta_normal a -> 0 <= td_days a ->
  td_days a * 86400 + td_seconds a < 2 ^ 34 ->
  timedelta_normal b -> 0 <= td_days b ->
  td_days b * 86400 + td_seconds b < 2 ^ 34 ->
  total_microseconds a / 60000000 = total_microseconds b / 60000000 ->
  format_duration a = format_duration b.
Proof.
  intros Ha Hda Hla Hb Hdb Hlb Hmin.
  destruct (int_total_seconds_nonneg a Ha Hda Hla) as [Hqa Hsa].
  destruct (int_total_seconds_nonneg b Hb Hdb Hlb) as [Hqb Hsb].
  rewrite !format_duration_units. cbv zeta. rewrite Hqa, Hqb.
  assert (Hmin' : total_microseconds a / 1000000 / 60
                  = total_microseconds b / 1000000 / 60)
    by (rewrite !Z.div_div by lia; exact Hmin).
  destruct (units_of_whole_minutes (total_microseconds a / 1000000))
    as (-> & -> & ->); [destruct Ha; lia |].
  destruct (units_of_whole_minutes (total_microseconds b / 1000000))
    as (-> & -> & ->); [destruct Hb; lia |].
  now rewrite Hmin'.
Qed.

(** One minute and one microsecond, and a microsecond short of two
    minutes. *)
Lemma format_duration_whole_minutes_witness :
  format_duration (mk_timedelta 0 60 1) = format_duration (mk_timedelta 0 119 999999).
Proof.
  refine (format_duration_whole_minutes
            (mk_timedelta 0 60 1) (mk_timedelta 0 119 999999) _ _ _ _ _ _ _).
  - unfold timedelta_normal; simpl; lia.
  - simpl; lia.
  - vm_compute. reflexivity.
  - unfold timedelta_normal; simpl; lia.
  - simpl; lia.
  - vm_compute. reflexivity.
  - reflexivity.
Defined.

(** X2. A span whose whole seconds, as [int(td.total_seconds())] gives
    them, are negative: the days, which floor division makes negative, are
    never printed, and the hours and minutes are those of the span counted
    from the start of a day; the label is that of the whole seconds modulo
    one day. For a span shorter than 2^34 seconds these whole seconds are
    the microseconds divided by a million and truncated toward zero. *)
Theorem format_duration_negative (td : timedelta) :
  int_total_seconds td < 0 ->
  format_duration td
  = format_duration (mk_timedelta 0 (int_total_seconds td mod 86400) 0)
  /\ format_duration td
     = duration_label 0 ((int_total_seconds td mod 86400) / 3600)
         (((int_total_seconds td mod 86400) mod 3600) / 60)
  /\ (Z.abs (total_microseconds td) < 2 ^ 34 * 1000000 ->
      int_total_seconds td = Z.quot (total_microseconds td) 1000000).
Proof.
  intros Hneg.
  pose proof (Z.mod_pos_bound (int_total_seconds td) 86400 ltac:(lia)) as Hr.
  set (r := int_total_seconds td mod 86400) in *.
  assert (Hint : int_total_seconds (mk_timedelta 0 r 0) = r).
  { destruct (int_total_seconds_nonneg (mk_timedelta 0 r 0)) as [-> ->].
    - unfold timedelta_normal. cbn [td_seconds td_microseconds]. lia.
    - cbn [td_days]. lia.
    - cbn [td_days td_seconds]. change (2 ^ 34) with 17179869184. lia.
    - cbn [td_days td_seconds]. lia. }
  assert (Hlabel : format_duration td = duration_label 0 (r / 3600) ((r mod 3600) / 60)).
  { rewrite format_duration_units. cbv zeta. fold r. unfold duration_label.
    assert (Hd : (0 <? int_total_seconds td / 86400) = false).
    { apply Z.ltb_ge.
      assert (int_total_seconds td / 86400 < 0)
        by (apply Z.div_lt_upper_bound; lia).
      lia. }
    now rewrite Hd. }
  split; [| split; [exact Hlabel | apply int_total_seconds_exact]].
  rewrite Hlabel, (format_duration_units (mk_timedelta 0 r 0)). cbv zeta.
  rewrite Hint, (Z.mod_small r 86400), (Z.div_small r 86400) by lia.
  reflexivity.
Qed.

(** One second before zero reads as 23 hours 59 minutes; one microsecond
    after 59 seconds past minus 200000 days, a span of 2^34 seconds and
    more, has its whole seconds rounded away from zero and reads as no
    minute. *)
Lemma format_duration_negative_witness :
  format_duration (mk_timedelta (-1) 86399 0) = "23h 59m"
  /\ format_duration (mk_timedelta (-200000) 59 1) = "0m".
Proof.
  split.
  - refine (eq_trans
              (proj1 (proj2 (format_duration_negative (mk_timedelta (-1) 86399 0) _))) _).
    + vm_compute. reflexivity.
    + reflexivity.
  - refine (eq_trans
              (proj1 (proj2 (format_duration_negative (mk_timedelta (-200000) 59 1) _))) _).
    + vm_compute. reflexivity.
    + reflexivity.
Defined.

(** The label is read back unit by unit: a number is made of digits, and
    neither a unit letter nor the space is a digit. *)
Lemma pretty_N_go_decimal (x : N) (s : string) :
  decimal s = true -> decimal (pretty_N_go x s) = true.
Proof.
  revert s. induction (N.lt_wf_0 x) as [x _ IH]; intros s Hs.
  assert (x = 0 \/ 0 < x)%N as [-> | Hx] by lia.
  - now rewrite pretty_N_go_0.
  - rewrite pretty_N_go_step by exact Hx.
    apply IH; [now apply N.div_lt |].
    cbn [decimal]. rewrite Hs.
    unfold pretty_N_char. now repeat case_match.
Qed.

Lemma str_int_decimal (n : Z) : 0 <= n -> decimal (str_int n) = true.
Proof.
  intros Hn. unfold str_int, pretty, pretty_Z.
  destruct n as [| p | p]; [reflexivity | | lia].
  unfold pretty, pretty_positive, pretty, pretty_N.
  case_decide; [reflexivity |]. now apply pretty_N_go_decimal.
Qed.

Lemma decimal_token (a b : string) (x y : ascii) (r s : string) :
  decimal a = true -> decimal b = true ->
  digit_value x = None -> digit_value y = None ->
  a +:+ String x r = b +:+ String y s ->
  a = b /\ x = y /\ r = s.
Proof.
  revert b. induction a as [| c a IH]; intros [| c' b] Ha Hb Hx Hy Heq.
  - now injection Heq as -> ->.
  - injection Heq as -> _. cbn in Hb. now rewrite Hx in Hb.
  - injection Heq as -> _. cbn in Ha. now rewrite Hy in Ha.
  - injection Heq as -> Heq. cbn in Ha, Hb.
    destruct (digit_value c'); [| discriminate].
    destruct (IH b Ha Hb Hx Hy Heq) as (-> & -> & ->). now repeat split.
Qed.

Ltac read_token H a b r s :=
  apply (decimal_token a b _ _ r s) in H;
  [destruct H as (? & ? & ?) | assumption | assumption | reflexivity | reflexivity].

Lemma duration_label_inj (d h m d' h' m' : Z) :
  0 <= d -> 0 <= h -> 0 <= m -> 0 <= d' -> 0 <= h' -> 0 <= m' ->
  duration_label d h m = duration_label d' h' m' ->
  d = d' /\ h = h' /\ m = m'.
Proof.
  intros Hd Hh Hm Hd' Hh' Hm' Heq.
  pose proof (str_int_decimal d Hd). pose proof (str_int_decimal h Hh).
  pose proof (str_int_decimal m Hm). pose proof (str_int_decimal d' Hd').
  pose proof (str_int_decimal h' Hh'). pose proof (str_int_decimal m' Hm').
  unfold duration_label in Heq.
  destruct (0 <? d) eqn:Ed, (0 <? h) eqn:Eh, (0 <? m) eqn:Em,
           (0 <? d') eqn:Ed', (0 <? h') eqn:Eh', (0 <? m') eqn:Em';
    repeat match goal with
      | H : ?a +:+ _ +:+ ?r = ?b +:+ _ +:+ ?s |- _ => read_token H a b r s
      | H : ?a +:+ _ = ?b +:+ _ +:+ ?s |- _ => read_token H a b EmptyString s
      | H : ?a +:+ _ +:+ ?r = ?b +:+ _ |- _ => read_token H a b r EmptyString
      | H : ?a +:+ _ = ?b +:+ _ |- _ => read_token H a b EmptyString EmptyString
      | H : " " +:+ _ = " " +:+ _ |- _ => injection H as H
      | H : context [String.append EmptyString ?x] |- _ =>
          change (String.append EmptyString x) with x in H
      | H : str_int _ = str_int _ |- _ => apply (inj pretty) in H
      end;
    try discriminate;
    try (apply Z.ltb_ge in Ed); try (apply Z.ltb_ge in Eh); try (apply Z.ltb_ge in Em);
    try (apply Z.ltb_ge in Ed'); try (apply Z.ltb_ge in Eh'); try (apply Z.ltb_ge in Em');
    lia.
Qed.

(** X22. Below 2^34 seconds the label tells the whole minutes: two
    non-negative spans shorter than 2^34 seconds with the same label have
    the same number of whole minutes, so that no two such durations whose
    whole minutes differ read the same. *)
Theorem format_duration_tells_minutes (a b : timedelta) :
  timedelta_normal a -> 0 <= td_days a ->
  td_days a * 86400 + td_seconds a < 2 ^ 34 ->
  timedelta_normal b -> 0 <= td_days b ->
  td_days b * 86400 + td_seconds b < 2 ^ 34 ->
  format_duration a = format_duration b ->
  total_microseconds a / 60000000 = total_microseconds b / 60000000.
Proof.
  intros Ha Hda Hla Hb Hdb Hlb Heq.
  destruct (int_total_seconds_nonneg a Ha Hda Hla) as [Hqa Hsa].
  destruct (int_total_seconds_nonneg b Hb Hdb Hlb) as [Hqb Hsb].
  rewrite !format_duration_units in Heq. cbv zeta in Heq.
  rewrite Hqa, Hqb in Heq.
  change 60000000 with (1000000 * 60). rewrite <- !Z.div_div by lia.
  assert (Hna : 0 <= total_microseconds a / 1000000) by (destruct Ha; lia).
  assert (Hnb : 0 <= total_microseconds b / 1000000) by (destruct Hb; lia).
  destruct (units_of_whole_minutes _ Hna) as (Ea1 & Ea2 & Ea3).
  destruct (units_of_whole_minutes _ Hnb) as (Eb1 & Eb2 & Eb3).
  rewrite Ea1, Ea2, Ea3, Eb1, Eb2, Eb3 in Heq.
  set (A := total_microseconds a / 1000000 / 60) in *.
  set (B := total_microseconds b / 1000000 / 60) in *.
  assert (0 <= A) by (apply Z.div_pos; lia).
  assert (0 <= B) by (apply Z.div_pos; lia).
  pose proof (Z.div_mod A 1440 ltac:(lia)).
  pose proof (Z.mod_pos_bound A 1440 ltac:(lia)).
  pose proof (Z.div_mod (A mod 1440) 60 ltac:(lia)).
  pose proof (Z.mod_pos_bound (A mod 1440) 60 ltac:(lia)).
  pose proof (Z.div_mod B 1440 ltac:(lia)).
  pose proof (Z.mod_pos_bound B 1440 ltac:(lia)).
  pose proof (Z.div_mod (B mod 1440) 60 ltac:(lia)).
  pose proof (Z.mod_pos_bound (B mod 1440) 60 ltac:(lia)).
  assert (HmA : A mod 60 = (A mod 1440) mod 60)
    by (symmetry; apply Z.mod_mod_divide; exists 24; lia).
  assert (HmB : B mod 60 = (B mod 1440) mod 60)
    by (symmetry; apply Z.mod_mod_divide; exists 24; lia).
  pose proof (Z.div_pos A 1440 ltac:(lia) ltac:(lia)).
  pose proof (Z.div_pos B 1440 ltac:(lia) ltac:(lia)).
  pose proof (Z.div_pos (A mod 1440) 60 ltac:(lia) ltac:(lia)).
  pose proof (Z.div_pos (B mod 1440) 60 ltac:(lia) ltac:(lia)).
  apply duration_label_inj in Heq; [| lia ..].
  lia.
Qed.

(** A span of ninety seconds and one of a minute read the same, and
    indeed hold the same whole minute. *)
Lemma format_duration_tells_minutes_witness :
  total_microseconds (mk_timedelta 0 90 0) / 60000000
  = total_microseconds (mk_timedelta 0 60 0) / 60000000.
Proof.
  refine (format_duration_tells_minutes
            (mk_timedelta 0 90 0) (mk_timedelta 0 60 0) _ _ _ _ _ _ _).
  - unfold timedelta_normal; simpl; lia.
  - simpl; lia.
  - vm_compute. reflexivity.
  - unfold timedelta_normal; simpl; lia.
  - simpl; lia.
  - vm_compute. reflexivity.
  - vm_compute. reflexivity.
Defined.

(** ** The presence store, beyond the round trip *)

Section Store_extras.
Context {R : Runtime}.

Lemma convert_start_time_other (now : clock) (data : gmap string pyval) (k : string) :
  k <> "afk_start_time" -> convert_start_time now data !! k = data !! k.
Proof.
  intros Hk. unfold convert_start_time.
  destruct (data !! "afk_start_time") as [[| | | | s | | |]|]; try reflexivity.
  destruct (fromisoformat s); now rewrite lookup_insert_ne.
Qed.

Lemma BotState_new_fields (now : clock) (kwargs : gmap string pyval) (state : BotState) :
  BotState_new now kwargs = Some state <->
  field kwargs "afk_message" validate_str "" = Some (afk_message state)
  /\ field kwargs "notified_ids" validate_list_int [] = Some (notified_ids state)
  /\ field kwargs "is_afk" validate_bool false = Some (is_afk state)
  /\ field kwargs "afk_start_time" validate_datetime (datetime_now now)
     = Some (afk_start_time state).
Proof.
  unfold BotState_new. split.
  - intros Hnew.
    destruct (field kwargs "afk_message" validate_str "") as [m|]; [| discriminate].
    destruct (field kwargs "notified_ids" validate_list_int []) as [ids|]; [| discriminate].
    destruct (field kwargs "is_afk" validate_bool false) as [a|]; [| discriminate].
    destruct (field kwargs "afk_start_time" validate_datetime (datetime_now now)) as [t|];
      [| discriminate].
    cbn in Hnew. inversion Hnew; subst. now repeat split.
  - intros (-> & -> & -> & ->). now destruct state.
Qed.

(** X3. [load_state] only reads: the state file, its writability and the
    outbox are as before. It logs one warning exactly when it falls back
    on the default state, which it does for a missing file, a content that
    is not JSON, an error of reading that its [except] clause names and an
    object that fails validation. Otherwise the log is as before, and the
    state returned is the one built from the stored object, or
    [load_state] raises an exception that the clause does not name. *)
Theorem load_state_effects (now : clock) (w w1 : world) (r : outcome BotState) :
  load_state now w = (r, w1) ->
  db w1 = db w /\ db_writable w1 = db_writable w /\ outbox w1 = outbox w
  /\ ((exists e,
         load_state_catches e = true
         /\ r = Return (default_state now)
         /\ journal w1 = journal w ++ [mk_log_record WARNING (Failed_to_load_state e)]
         /\ (db w = Absent \/ db w = Unreadable \/ db w = Inaccessible e
             \/ exists data,
                  db w = Document (PDict data)
                  /\ BotState_new now (convert_start_time now data) = None))
      \/ (w1 = w
          /\ ((exists data state,
                 db w = Document (PDict data)
                 /\ BotState_new now (convert_start_time now data) = Some state
                 /\ r = Return state)
              \/ exists e, r = Raise e /\ load_state_catches e = false))).
Proof.
  intros Hload. destruct (load_state_frame _ _ _ _ Hload) as (Hdb & Hw & Hout).
  repeat (split; [assumption |]).
  rewrite load_state_cases in Hload.
  destruct (db w) as [| | v | e] eqn:Hfile.
  - inversion Hload; subst. left. exists FileNotFoundError. repeat split. now left.
  - inversion Hload; subst. left. exists JSONDecodeError. repeat split. right; now left.
  - destruct v as [| b | n | x | s | items | data | dt];
      try (inversion Hload; subst; right; split; [reflexivity |];
           right; exists TypeError; now split).
    destruct (BotState_new now (convert_start_time now data)) as [state |] eqn:Hnew;
      inversion Hload; subst.
    + right. split; [reflexivity |]. left. now exists data, state.
    + left. exists ValidationError. repeat split. do 3 right. now exists data.
  - destruct (load_state_catches e) eqn:Hcatch; inversion Hload; subst.
    + left. exists e. repeat split; [assumption |]. right; right; now left.
    + right. split; [reflexivity |]. right. now exists e.
Qed.

(** X4. [load_state] raises exactly what its [except] clause does not
    name: the error of [open] or of [json.load] when it is neither
    [FileNotFoundError] nor a [ValueError], and [TypeError] on a document
    that is not an object. Nothing is logged or changed then. A missing
    file, a content that is not JSON and every JSON object yield a
    state. (The clock can be read: the configured zone is one that
    [ZoneInfo] knows.) *)
Theorem load_state_raises_uncaught (now : clock) (w w1 : world) (e : exn) :
  load_state now w = (Raise e, w1) <->
  w1 = w
  /\ ((db w = Inaccessible e /\ load_state_catches e = false)
      \/ (e = TypeError
          /\ exists v, db w = Document v /\ forall data, v <> PDict data)).
Proof.
  rewrite load_state_cases. split.
  - intros Hload.
    destruct (db w) as [| | v | e'] eqn:Hdb; try discriminate.
    + destruct v as [| b | n | x | s | items | data | dt];
        try (inversion Hload; subst; split; [reflexivity |]; right;
             split; [reflexivity |]; eexists; split; [reflexivity | discriminate]).
      destruct (BotState_new now (convert_start_time now data)); discriminate.
    + destruct (load_state_catches e') eqn:Hcatch; inversion Hload; subst.
      split; [reflexivity |]. now left.
  - intros [-> [[-> ->] | (-> & v & -> & Hv)]]; [reflexivity |].
    destruct v; try reflexivity. now destruct (Hv entries).
Qed.

(** X5. Of a stored object [load_state] reads the four fields of
    [BotState] and nothing else: two objects that agree on
    [afk_message], [notified_ids], [is_afk] and [afk_start_time] load as
    the same state, whatever other keys they hold. *)
Theorem load_state_reads_four_fields
    (now : clock) (w w' : world) (data data' : gmap string pyval) :
  db w = Document (PDict data) ->
  db w' = Document (PDict data') ->
  (forall k, k ∈ ["afk_message"; "notified_ids"; "is_afk"; "afk_start_time"] ->
             data !! k = data' !! k) ->
  stored now w = stored now w'.
Proof.
  intros Hdb Hdb' Hsame. unfold stored.
  rewrite !load_state_cases, Hdb, Hdb'.
  assert (Hconv : forall k,
    k ∈ ["afk_message"; "notified_ids"; "is_afk"; "afk_start_time"] ->
    convert_start_time now data !! k = convert_start_time now data' !! k).
  { intros k Hk. destruct (decide (k = "afk_start_time")) as [-> | Hne].
    - unfold convert_start_time. rewrite <- (Hsame _ Hk).
      destruct (data !! "afk_start_time") as [[| | | | s | | |]|] eqn:Hstart;
        try (now apply Hsame).
      destruct (fromisoformat s); now rewrite !lookup_insert_eq.
    - rewrite !convert_start_time_other by assumption. now apply Hsame. }
  assert (Hnew : BotState_new now (convert_start_time now data)
                 = BotState_new now (convert_start_time now data')).
  { unfold BotState_new, field.
    rewrite !Hconv by (repeat first [apply list_elem_of_here | apply list_elem_of_further]).
    reflexivity. }
  rewrite Hnew. now destruct (BotState_new now (convert_start_time now data')).
Qed.

(** X6. A field that the stored object does not hold takes its default,
    one field at a time and without a warning: an empty message, an empty
    list of notified identifiers, the inactive flag, the clock reading as
    start time. *)
Theorem load_state_absent_fields
    (now : clock) (w w1 : world) (data : gmap string pyval) (state : BotState) :
  db w = Document (PDict data) ->
  load_state now w = (Return state, w1) ->
  (data !! "afk_message" = None -> afk_message state = "")
  /\ (data !! "notified_ids" = None -> notified_ids state = [])
  /\ (data !! "is_afk" = None -> is_afk state = false)
  /\ (data !! "afk_start_time" = None -> afk_start_time state = datetime_now now).
Proof.
  intros Hdb. rewrite load_state_cases, Hdb.
  destruct (BotState_new now (convert_start_time now data)) as [st|] eqn:Hnew;
    intros Hload; inversion Hload; subst; [| now repeat split].
  apply BotState_new_fields in Hnew as (Hm & Hids & Ha & Ht).
  unfold field in *.
  rewrite convert_start_time_other in Hm, Hids, Ha by done.
  repeat split; intros Hnone.
  - rewrite Hnone in Hm. congruence.
  - rewrite Hnone in Hids. congruence.
  - rewrite Hnone in Ha. congruence.
  - unfold convert_start_time in Ht. rewrite !Hnone in Ht. congruence.
Qed.

(** X7. A stored object whose four fields are of their types loads as
    they stand, with the start time that [fromisoformat] reads from its
    string; nothing is logged and nothing is written. *)
Theorem load_state_well_typed_record
    (now : clock) (w : world) (data : gmap string pyval)
    (message s : string) (ids : list Z) (active : bool) (dt : datetime) :
  db w = Document (PDict data) ->
  data !! "afk_message" = Some (PStr message) ->
  data !! "notified_ids" = Some (PList (PInt <$> ids)) ->
  data !! "is_afk" = Some (PBool active) ->
  data !! "afk_start_time" = Some (PStr s) ->
  fromisoformat s = Some dt ->
  load_state now w = (Return (mk_BotState message ids active dt), w).
Proof.
  intros Hdb Hm Hids Ha Hstart Hparse.
  rewrite load_state_cases, Hdb.
  assert (Hnew : BotState_new now (convert_start_time now data)
                 = Some (mk_BotState message ids active dt)).
  { apply BotState_new_fields. unfold field.
    rewrite !convert_start_time_other by done.
    rewrite Hm, Hids, Ha. cbn [afk_message notified_ids is_afk afk_start_time].
    repeat split; [apply validate_ints |].
    unfold convert_start_time. rewrite Hstart, Hparse.
    now rewrite lookup_insert_eq. }
  now rewrite Hnew.
Qed.

End Store_extras.

(** A content that is not JSON: the file and the outbox are as before. *)
Lemma load_state_effects_witness :
  db (snd (load_state (R := strict_runtime) noon (store_of Unreadable false)))
  = Unreadable
  /\ outbox (snd (load_state (R := strict_runtime) noon (store_of Unreadable false)))
     = [].
Proof.
  pose proof (load_state_effects (R := strict_runtime) noon (store_of Unreadable false)
                _ _ eq_refl) as H.
  exact (conj (proj1 H) (proj1 (proj2 (proj2 H)))).
Defined.

(** A state file that is a directory. *)
Lemma load_state_raises_uncaught_witness :
  load_state (R := strict_runtime) afternoon (store_of (Inaccessible IsADirectoryError) true)
  = (Raise IsADirectoryError, store_of (Inaccessible IsADirectoryError) true).
Proof.
  refine (proj2 (load_state_raises_uncaught (R := strict_runtime) afternoon
                   (store_of (Inaccessible IsADirectoryError) true)
                   (store_of (Inaccessible IsADirectoryError) true)
                   IsADirectoryError) _).
  split; [reflexivity |]. left. split; reflexivity.
Defined.

(** A record that holds nothing but the active flag. *)
Lemma load_state_absent_fields_witness :
  stored (R := strict_runtime) noon
    (store_of (Document (PDict (<["is_afk" := PBool true]> ∅))) true)
  = Return (mk_BotState "" [] true (datetime_now noon))
  /\ notified_ids (mk_BotState "" [] true (datetime_now noon)) = [].
Proof.
  split; [vm_compute; reflexivity |].
  refine (proj1 (proj2
    (load_state_absent_fields (R := strict_runtime) noon
       (store_of (Document (PDict (<["is_afk" := PBool true]> ∅))) true)
       (store_of (Document (PDict (<["is_afk" := PBool true]> ∅))) true)
       (<["is_afk" := PBool true]> ∅) (mk_BotState "" [] true (datetime_now noon))
       _ _)) _).
  - reflexivity.
  - vm_compute. reflexivity.
  - reflexivity.
Defined.

(** The record of [started_yesterday] with a start time that parses, a
    key that names no field, read from a file that cannot be written. *)
Lemma load_state_well_typed_record_witness :
  load_state (R := strict_runtime) noon
    (store_of
       (Document (PDict (<["afk_start_time" := PStr "2024-01-01T09:00:00+00:00"]>
                          (<["version" := PInt 2]> started_yesterday))))
       false)
  = (Return busy_since_nine,
     store_of
       (Document (PDict (<["afk_start_time" := PStr "2024-01-01T09:00:00+00:00"]>
                          (<["version" := PInt 2]> started_yesterday))))
       false).
Proof.
  refine (load_state_well_typed_record (R := strict_runtime) noon _
            (<["afk_start_time" := PStr "2024-01-01T09:00:00+00:00"]>
               (<["version" := PInt 2]> started_yesterday))
            "busy" "2024-01-01T09:00:00+00:00" [7] true (utc 2024 1 1 9 0 0)
            _ _ _ _ _ _); reflexivity.
Defined.

(** Two records that differ in a key that names no field. *)
Lemma load_state_reads_four_fields_witness :
  stored (R := strict_runtime) noon
    (store_of (Document (PDict started_yesterday)) true)
  = stored (R := strict_runtime) noon
      (store_of (Document (PDict (<["version" := PInt 2]> started_yesterday))) false).
Proof.
  refine (load_state_reads_four_fields (R := strict_runtime) noon _ _
            started_yesterday (<["version" := PInt 2]> started_yesterday) _ _ _).
  - reflexivity.
  - reflexivity.
  - intros k Hk.
    repeat (apply elem_of_cons in Hk as [-> | Hk]; [reflexivity |]).
    now apply elem_of_nil in Hk.
Defined.

(** ** Stripping *)

Lemma lstrip_length (s : string) : (String.length (lstrip s) <= String.length s)%nat.
Proof.
  induction s as [| c s IH]; simpl; [lia |].
  destruct (isspace c); simpl; lia.
Qed.

Lemma lstrip_fixed (c : ascii) (s : string) :
  lstrip (String c s) = String c s <-> isspace c = false.
Proof.
  simpl. destruct (isspace c) eqn:Hc; split; try reflexivity; try discriminate.
  intros Heq. pose proof (lstrip_length s) as Hlen. rewrite Heq in Hlen.
  simpl in Hlen. lia.
Qed.

Lemma lstrip_idem (s : string) : lstrip (lstrip s) = lstrip s.
Proof.
  induction s as [| c s IH]; [reflexivity |].
  simpl. destruct (isspace c) eqn:Hc; [exact IH |].
  simpl. now rewrite Hc.
Qed.

Lemma rstrip_idem (s : string) : rstrip (rstrip s) = rstrip s.
Proof.
  induction s as [| c s IH]; [reflexivity |].
  simpl. destruct (rstrip s) as [| a r] eqn:Hr.
  - destruct (isspace c) eqn:Hc; [reflexivity |]. simpl. now rewrite Hc.
  - change (rstrip (String c (String a r))) with
      (match rstrip (String a r) with
       | EmptyString => if isspace c then EmptyString else String c EmptyString
       | String a' r' => String c (String a' r')
       end).
    now rewrite IH.
Qed.

Lemma lstrip_rstrip (s : string) : lstrip s = s -> lstrip (rstrip s) = rstrip s.
Proof.
  destruct s as [| c s]; [reflexivity |].
  intros Hfixed. apply lstrip_fixed in Hfixed.
  simpl. destruct (rstrip s); [rewrite Hfixed |]; now apply lstrip_fixed.
Qed.

Lemma strip_stripped (s : string) :
  lstrip (strip s) = strip s /\ rstrip (strip s) = strip s.
Proof.
  unfold strip. split; [apply lstrip_rstrip, lstrip_idem | apply rstrip_idem].
Qed.

Lemma lstrip_blanks (blanks s : string) :
  lstrip blanks = "" -> lstrip (blanks +:+ s) = lstrip s.
Proof.
  induction blanks as [| c blanks IH]; [reflexivity |].
  change (String c blanks +:+ s) with (String c (blanks +:+ s)). simpl.
  destruct (isspace c); [exact IH | discriminate].
Qed.

(** ** The presence controller, beyond the claims *)

Section Controller_extras.
Context {R : Runtime}.

(** What [load_state] makes of a file does not depend on the clock,
    the start time apart. *)
Lemma stored_clock (t t' : clock) (w : world) (state : BotState) :
  stored t w = Return state ->
  exists state',
    stored t' w = Return state'
    /\ afk_message state' = afk_message state
    /\ notified_ids state' = notified_ids state
    /\ is_afk state' = is_afk state.
Proof.
  unfold stored. rewrite !load_state_cases.
  destruct (db w) as [| | v | e];
    [| | destruct v as [| b | n | x | s | items | data | dt]
     | destruct (load_state_catches e)];
    try discriminate;
    try (intros Hst; inversion Hst; subst; eexists; now repeat split).
  assert (Hstart : forall c,
    is_Some (field (convert_start_time c data) "afk_start_time" validate_datetime
               (datetime_now c))
    <-> match data !! "afk_start_time" with
        | Some (PStr _) | None => True
        | Some v => is_Some (validate_datetime v)
        end).
  { intros c. unfold field, convert_start_time.
    destruct (data !! "afk_start_time") as [[| b | n | x | s | items | entries | dt]|]
      eqn:Hstart; rewrite ?Hstart; try reflexivity.
    - destruct (fromisoformat s); rewrite lookup_insert_eq;
        (split; [trivial | intros _; eexists; reflexivity]).
    - split; [trivial | intros _; eexists; reflexivity]. }
  destruct (BotState_new t (convert_start_time t data)) as [st|] eqn:Hnew.
  - pose proof Hnew as Hfields.
    apply BotState_new_fields in Hfields as (Hm & Hids & Ha & Ht).
    assert (Hsome : is_Some (field (convert_start_time t' data) "afk_start_time"
                               validate_datetime (datetime_now t')))
      by (apply Hstart, (Hstart t); eauto).
    destruct Hsome as [dt' Hdt'].
    assert (Hnew' : BotState_new t' (convert_start_time t' data)
                    = Some (mk_BotState (afk_message st) (notified_ids st) (is_afk st) dt')).
    { apply BotState_new_fields. unfold field in *.
      rewrite !convert_start_time_other in * by done. now repeat split. }
    rewrite Hnew'. intros Hst. inversion Hst; subst. eexists. now repeat split.
  - destruct (BotState_new t' (convert_start_time t' data)) as [st'|] eqn:Hnew'.
    + exfalso.
      apply BotState_new_fields in Hnew' as (Hm & Hids & Ha & Ht).
      assert (Hsome : is_Some (field (convert_start_time t data) "afk_start_time"
                                 validate_datetime (datetime_now t)))
        by (apply Hstart, (Hstart t'); eauto).
      destruct Hsome as [dt Hdt].
      assert (Hsome' : BotState_new t (convert_start_time t data)
                       = Some (mk_BotState (afk_message st') (notified_ids st')
                                 (is_afk st') dt)).
      { apply BotState_new_fields. unfold field in *.
        rewrite !convert_start_time_other in * by done. now repeat split. }
      congruence.
    + intros Hst. inversion Hst; subst. eexists. now repeat split.
Qed.

Lemma stored_saved (t : clock) (w : world) (state : BotState) :
  db w = saved state -> stored t w = Return (reloaded t state).
Proof. intros Hdb. unfold stored. now rewrite (load_state_saved t state w Hdb). Qed.

Lemma stored_db (t : clock) (w w' : world) :
  db w = db w' -> stored t w = stored t w'.
Proof. apply load_state_db. Qed.





Lemma datetime_sub_now_raises (now : clock) (start : datetime) (e : exn) :
  datetime_sub (datetime_now now) start = Raise e ->
  e = TypeError /\ utcoffset start = None.
Proof.
  unfold datetime_sub. cbn [utcoffset datetime_now].
  destruct (utcoffset start); [discriminate |].
  intros Hsub. inversion Hsub. now split.
Qed.

(** X10. Every event yields at most one directive, added at the end of
    the outbox, and of the kind of the event: an edit of the command
    message for [.afk] and [.unafk], a reply in the chat of the message
    for an incoming message. *)
Theorem one_directive_at_most (now : clock) (ev : event) (w : world) :
  exists directives,
    outbox (step w (now, ev)) = outbox w ++ directives
    /\ (length directives <= 1)%nat
    /\ forall d, d ∈ directives ->
         match ev with
         | IncomingMessage peer_id _ => exists text, d = Reply peer_id text
         | _ => exists text, d = Edit text
         end.
Proof.
  assert (Hnone : forall w', outbox w' = outbox w ->
    exists directives,
      outbox w' = outbox w ++ directives
      /\ (length directives <= 1)%nat
      /\ forall d, d ∈ directives ->
           match ev with
           | IncomingMessage peer_id _ => exists text, d = Reply peer_id text
           | _ => exists text, d = Edit text
           end).
  { intros w' Hout. exists []. rewrite app_nil_r. repeat split; [assumption | cbn; lia |].
    intros d Hd. now apply elem_of_nil in Hd. }
  unfold step. cbn [fst snd].
  destruct ev as [group1 | | peer_id sender_id]; cbn [handle].
  - rewrite start_afk_handler_cases.
    destruct (db_writable w); [| now apply Hnone].
    eexists [_]. repeat split; [cbn; lia |].
    intros d Hd. apply list_elem_of_singleton in Hd. eauto.
  - destruct (load_state now w) as [[state | e] w1] eqn:Hload;
      destruct (load_state_frame _ _ _ _ Hload) as (_ & _ & Hout).
    + rewrite (start_unafk_handler_cases _ _ _ _ Hload).
      destruct (is_afk state).
      * destruct (db_writable w); [| now apply Hnone].
        destruct (datetime_sub (datetime_now now) (afk_start_time state));
          [| now apply Hnone].
        eexists [_]. cbn [snd outbox add_directive add_log set_db]. rewrite Hout.
        repeat split; [cbn; lia |].
        intros d Hd. apply list_elem_of_singleton in Hd. eauto.
      * eexists [_]. cbn [snd outbox add_directive add_log]. rewrite Hout.
        repeat split; [cbn; lia |].
        intros d Hd. apply list_elem_of_singleton in Hd. eauto.
    + rewrite (proj1 (handler_load_raises _ _ _ _ Hload)). now apply Hnone.
  - destruct peer_id as [user_id | chat_id | channel_id];
      try (now apply Hnone).
    destruct (load_state now w) as [[state | e] w1] eqn:Hload;
      destruct (load_state_frame _ _ _ _ Hload) as (_ & _ & Hout).
    + rewrite (handle_private_message_cases _ _ _ _ _ _ Hload).
      destruct (is_afk state); [| now apply Hnone]. cbn [negb].
      destruct (bool_decide (sender_id ∈ notified_ids state)); [now apply Hnone |].
      destruct (db_writable w); [| now apply Hnone].
      destruct (datetime_sub (datetime_now now) (afk_start_time state));
        [| now apply Hnone].
      eexists [_]. cbn [snd outbox add_directive add_log set_db]. rewrite Hout.
      repeat split; [cbn; lia |].
      intros d Hd. apply list_elem_of_singleton in Hd. eauto.
    + rewrite (proj2 (handler_load_raises _ _ _ _ Hload)). now apply Hnone.
Qed.

(** X11. Where a handler fails. A handler that raises has issued no
    directive, and it raises at one of three places: where it reads the
    state, and then the exception is the one that [load_state] raised (the
    [.afk] command does not read); where it writes the state, and then the
    state file is not writable; or where it subtracts the start time from
    the clock reading, and then the exception is [TypeError], the stored
    session being active with a naive start time. (The clock can be read,
    and the directive is handed to the client, whose sending of it is not
    the handler's.) *)
Theorem handler_failures (now : clock) (ev : event) (w w' : world) (e : exn) :
  handle now ev w = (Raise e, w') ->
  outbox w' = outbox w
  /\ ((fst (load_state now w) = Raise e /\ forall group1, ev <> AfkCommand group1)
      \/ db_writable w = false
      \/ (e = TypeError
          /\ exists state w1,
               load_state now w = (Return state, w1)
               /\ is_afk state = true
               /\ utcoffset (afk_start_time state) = None)).
Proof.
  destruct ev as [group1 | | peer_id sender_id]; cbn [handle].
  - rewrite start_afk_handler_cases.
    destruct (db_writable w) eqn:Hw; [discriminate |].
    intros Hr. inversion Hr; subst. split; [reflexivity |]. right; now left.
  - destruct (load_state now w) as [[state | e0] w1] eqn:Hload;
      destruct (load_state_frame _ _ _ _ Hload) as (_ & _ & Hout).
    + rewrite (start_unafk_handler_cases _ _ _ _ Hload).
      destruct (is_afk state) eqn:Hafk; [| discriminate].
      destruct (db_writable w) eqn:Hw;
        [| intros Hr; inversion Hr; subst; split; [assumption | right; now left]].
      destruct (datetime_sub (datetime_now now) (afk_start_time state)) eqn:Hsub;
        [discriminate |].
      intros Hr. inversion Hr; subst.
      destruct (datetime_sub_now_raises _ _ _ Hsub) as [-> Hnaive].
      split; [exact Hout |]. do 2 right. split; [reflexivity |]. now exists state, w1.
    + rewrite (proj1 (handler_load_raises _ _ _ _ Hload)).
      intros Hr. inversion Hr; subst.
      split; [assumption |]. left. split; [reflexivity | discriminate].
  - destruct peer_id as [user_id | chat_id | channel_id]; try discriminate.
    destruct (load_state now w) as [[state | e0] w1] eqn:Hload;
      destruct (load_state_frame _ _ _ _ Hload) as (_ & _ & Hout).
    + rewrite (handle_private_message_cases _ _ _ _ _ _ Hload).
      destruct (is_afk state) eqn:Hafk; [| discriminate]. cbn [negb].
      destruct (bool_decide (sender_id ∈ notified_ids state)); [discriminate |].
      destruct (db_writable w) eqn:Hw;
        [| intros Hr; inversion Hr; subst; split; [assumption | right; now left]].
      destruct (datetime_sub (datetime_now now) (afk_start_time state)) eqn:Hsub;
        [discriminate |].
      intros Hr. inversion Hr; subst.
      destruct (datetime_sub_now_raises _ _ _ Hsub) as [-> Hnaive].
      split; [exact Hout |]. do 2 right. split; [reflexivity |]. now exists state, w1.
    + rewrite (proj2 (handler_load_raises _ _ _ _ Hload)).
      intros Hr. inversion Hr; subst.
      split; [assumption |]. left. split; [reflexivity | discriminate].
Qed.



Lemma inactive_messages_helper
    (now : clock) (w w1 : world) (state : BotState) (peer_id : peer) (sender_id : Z) :
  load_state now w = (Return state, w1) ->
  is_afk state = false ->
  db (step w (now, IncomingMessage peer_id sender_id)) = db w
  /\ outbox (step w (now, IncomingMessage peer_id sender_id)) = outbox w.
Proof.
  intros Hload Hafk. unfold step. cbn [fst snd handle].
  destruct (load_state_frame _ _ _ _ Hload) as (Hdb & _ & Hout).
  destruct peer_id as [user_id | chat_id | channel_id]; try (now split).
  rewrite (handle_private_message_cases _ _ _ _ _ _ Hload), Hafk. now split.
Qed.

(** X13. While AFK mode is off, which includes a state file that is
    missing or unusable, messages that the account did not send itself
    get no reply, however many arrive, from whomever and in whatever chat,
    and the state file is left as it is: it is not created either. *)
Theorem inactive_ignores_messages
    (t : clock) (messages : list (clock * new_message)) (w : world) (state : BotState) :
  stored t w = Return state ->
  is_afk state = false ->
  Forall (fun tm => out tm.2 = false) messages ->
  db (foldl receive w messages) = db w
  /\ outbox (foldl receive w messages) = outbox w.
Proof.
  intros Hst Hafk Hall. revert w Hst.
  induction Hall as [| [now m] messages Hout _ IH]; intros w Hst; [now split |].
  cbn [foldl]. cbn [snd] in Hout.
  assert (Hstep : receive w (now, m)
                  = step w (now, IncomingMessage (message_peer_id m) (message_sender_id m))).
  { unfold receive, dispatch. cbn [fst snd]. now rewrite Hout. }
  destruct (stored_clock t now w state Hst) as (st' & Hst' & _ & _ & Ha).
  unfold stored in Hst'. destruct (load_state now w) as [r w1] eqn:Hload.
  cbn [fst] in Hst'. subst r.
  destruct (inactive_messages_helper now w w1 st' (message_peer_id m)
              (message_sender_id m) Hload ltac:(congruence)) as [Hdb Hout'].
  rewrite Hstep.
  destruct (IH (step w (now, IncomingMessage (message_peer_id m) (message_sender_id m))))
    as [Hdb'' Hout''].
  { now rewrite (stored_db t _ w Hdb). }
  split; congruence.
Qed.

(** X14. After [.unafk] on an active session with a writable store the
    session is over, whether or not the duration could be computed: a
    second [.unafk] answers that AFK mode was not active and writes
    nothing, and a private message gets no reply and is not recorded. *)
Theorem session_over_after_unafk
    (t t2 : clock) (w w1 : world) (state : BotState) :
  load_state t w = (Return state, w1) ->
  is_afk state = true ->
  db_writable w = true ->
  let w' := step w (t, UnafkCommand) in
  db w' = saved (set_is_afk false state)
  /\ outbox (step w' (t2, UnafkCommand))
     = outbox w' ++ [Edit "**AFK mode was not active**"]
  /\ db (step w' (t2, UnafkCommand)) = db w'
  /\ forall peer_id sender_id,
       outbox (step w' (t2, IncomingMessage peer_id sender_id)) = outbox w'
       /\ db (step w' (t2, IncomingMessage peer_id sender_id)) = db w'.
Proof.
  intros Hload Hafk Hw. cbv zeta.
  set (w' := step w (t, UnafkCommand)).
  assert (Hdb' : db w' = saved (set_is_afk false state)).
  { unfold w', step. cbn [fst snd handle].
    rewrite (start_unafk_handler_cases _ _ _ _ Hload), Hafk, Hw.
    now destruct (datetime_sub (datetime_now t) (afk_start_time state)). }
  pose proof (load_state_saved t2 _ _ Hdb') as Hload'.
  split; [exact Hdb' |]. split; [| split].
  - unfold step. cbn [fst snd handle].
    now rewrite (start_unafk_handler_cases _ _ _ _ Hload').
  - unfold step. cbn [fst snd handle].
    now rewrite (start_unafk_handler_cases _ _ _ _ Hload').
  - intros peer_id sender_id.
    destruct (inactive_messages_helper t2 w' w' _ peer_id sender_id Hload' eq_refl)
      as [Hdb Hout].
    now split.
Qed.


(** X16. The message that [.afk] stores is stripped: it neither starts
    nor ends with a whitespace character; when the text after the command
    is nothing but whitespace, the stored message is empty and the
    confirmation has no message line. *)
Theorem activation_message_stripped (now : clock) (group1 : string) (w : world) :
  db_writable w = true ->
  exists message,
    db (step w (now, AfkCommand group1)) = saved (activated_state now message)
    /\ lstrip message = message
    /\ rstrip message = message
    /\ (lstrip group1 = "" ->
        message = ""
        /\ outbox (step w (now, AfkCommand group1))
           = outbox w ++ [Edit "**AFK mode activated**"]).
Proof.
  intros Hw. exists (strip group1).
  unfold step. cbn [fst snd handle]. rewrite start_afk_handler_cases, Hw.
  split; [reflexivity |].
  destruct (strip_stripped group1) as [Hl Hr].
  split; [exact Hl |]. split; [exact Hr |].
  intros Hblank. unfold strip, activation_text. rewrite Hblank. now split.
Qed.

(** X17. Notification is per sender. The state file is writable and
    holds an active session in which neither of two distinct senders is
    notified yet; its start time is timezone-aware, so that the time since
    the start is defined at both clock readings, and [fromisoformat] reads
    it back from the string that [str] prints for it. Then a private
    message of each sender yields a reply to each, in the order of arrival,
    each with the time since the start of the session at its own clock
    reading; the store then lists both senders after the former ones. *)
Theorem distinct_senders_each_notified
    (t1 t2 later : clock) (user1 sender1 user2 sender2 : Z) (w w1 : world)
    (state : BotState) (elapsed1 elapsed2 : timedelta) :
  db_writable w = true ->
  load_state t1 w = (Return state, w1) ->
  is_afk state = true ->
  fromisoformat (datetime_str (afk_start_time state)) = Some (afk_start_time state) ->
  sender1 ∉ notified_ids state ->
  sender2 ∉ notified_ids state ->
  sender1 <> sender2 ->
  datetime_sub (datetime_now t1) (afk_start_time state) = Return elapsed1 ->
  datetime_sub (datetime_now t2) (afk_start_time state) = Return elapsed2 ->
  let final :=
    run [(t1, IncomingMessage (PeerUser user1) sender1);
         (t2, IncomingMessage (PeerUser user2) sender2)] w in
  outbox final
  = outbox w ++ [Reply (PeerUser user1) (notification_text (afk_message state) elapsed1);
                 Reply (PeerUser user2) (notification_text (afk_message state) elapsed2)]
  /\ stored later final
     = Return (mk_BotState (afk_message state) (notified_ids state ++ [sender1; sender2])
                 true (afk_start_time state)).
Proof.
  intros Hw Hload Hafk Hback Hnew1 Hnew2 Hne Hsub1 Hsub2. cbv zeta.
  destruct (load_state_frame _ _ _ _ Hload) as (_ & Hw1 & Hout).
  change (run [(t1, IncomingMessage (PeerUser user1) sender1);
               (t2, IncomingMessage (PeerUser user2) sender2)] w)
    with (step (step w (t1, IncomingMessage (PeerUser user1) sender1))
               (t2, IncomingMessage (PeerUser user2) sender2)).
  assert (Hfirst :
    step w (t1, IncomingMessage (PeerUser user1) sender1)
    = add_directive
        (Reply (PeerUser user1) (notification_text (afk_message state) elapsed1))
        (add_log (mk_log_record INFO (Sent_notification sender1))
           (set_db (saved (append_notified_id sender1 state)) w1))).
  { unfold step. cbn [fst snd handle].
    rewrite (handle_private_message_cases _ _ _ _ _ _ Hload), Hafk, Hw, Hsub1.
    cbn [negb]. now rewrite bool_decide_eq_false_2. }
  rewrite Hfirst. set (wa := add_directive _ _).
  assert (Hreload : forall t st,
    afk_start_time st = afk_start_time state -> reloaded t st = st).
  { intros t st Hst. unfold reloaded. rewrite Hst, Hback, <- Hst. now destruct st. }
  assert (Hload2 : load_state t2 wa = (Return (append_notified_id sender1 state), wa)).
  { rewrite (load_state_saved t2 (append_notified_id sender1 state)) by reflexivity.
    now rewrite Hreload by reflexivity. }
  assert (Hsecond :
    step wa (t2, IncomingMessage (PeerUser user2) sender2)
    = add_directive
        (Reply (PeerUser user2) (notification_text (afk_message state) elapsed2))
        (add_log (mk_log_record INFO (Sent_notification sender2))
           (set_db (saved (append_notified_id sender2 (append_notified_id sender1 state)))
              wa))).
  { unfold step. cbn [fst snd handle].
    rewrite (handle_private_message_cases _ _ _ _ _ _ Hload2).
    cbn [is_afk append_notified_id notified_ids afk_start_time afk_message].
    rewrite Hafk, Hsub2. cbn [negb].
    rewrite bool_decide_eq_false_2.
    - assert (Hwa : db_writable wa = true) by (unfold wa; cbn; congruence).
      now rewrite Hwa.
    - intros Hin. apply elem_of_app in Hin as [Hin | Hin]; [now apply Hnew2 |].
      apply list_elem_of_singleton in Hin. congruence. }
  rewrite Hsecond. split.
  - unfold wa. cbn. now rewrite Hout, <- app_assoc.
  - erewrite stored_saved by reflexivity. rewrite Hreload by reflexivity.
    unfold append_notified_id. cbn [afk_message notified_ids is_afk afk_start_time].
    rewrite Hafk. do 2 f_equal. now rewrite <- app_assoc.
Qed.

End Controller_extras.

(** ** The registration of the handlers *)

Lemma match_literal_app (literal rest : string) :
  match_literal literal (literal +:+ rest) = Some rest.
Proof.
  induction literal as [| c literal IH]; [now destruct rest |].
  change (String c literal +:+ rest) with (String c (literal +:+ rest)).
  cbn [match_literal]. now rewrite Ascii.eqb_refl.
Qed.

Lemma patterns_exclusive (text group1 : string) :
  afk_pattern text = Some group1 -> unafk_pattern text = false.
Proof.
  unfold afk_pattern, unafk_pattern.
  destruct text as [| c1 [| c2 text]]; cbn [match_literal]; try discriminate.
  - now destruct (Ascii.eqb "." c1).
  - destruct (Ascii.eqb "." c1); [| discriminate].
    destruct (Ascii.eqb "a" c2) eqn:Ha; [| discriminate].
    destruct (Ascii.eqb "u" c2) eqn:Hu; [| reflexivity].
    apply Ascii.eqb_eq in Ha, Hu. congruence.
Qed.

Lemma dot_star_first_line (line rest : string) :
  dot_star line = line -> dot_star (line +:+ newline +:+ rest) = line.
Proof.
  induction line as [| c line IH]; [reflexivity |].
  change (String c line +:+ newline +:+ rest) with (String c (line +:+ newline +:+ rest)).
  cbn [dot_star]. destruct (Ascii.eqb c (ascii_of_nat 10)); [discriminate |].
  intros Hline. inversion Hline as [Hline']. rewrite Hline'. now rewrite IH.
Qed.

(** X18. A new message sets off at most one handler: the patterns of the
    two commands exclude each other, and a message is either outgoing or
    incoming. *)
Theorem one_handler_at_most (m : new_message) : (length (dispatch m) <= 1)%nat.
Proof.
  unfold dispatch. destruct (out m); cbn [negb andb]; [| cbn; lia].
  rewrite app_nil_r.
  destruct (afk_pattern (raw_text m)) as [group1|] eqn:Hafk.
  - rewrite (patterns_exclusive _ _ Hafk). cbn. lia.
  - destruct (unafk_pattern (raw_text m)); cbn; lia.
Qed.

Section Reception_extras.
Context {R : Runtime}.

(** X19. The [.afk] command round trip: an outgoing message made of
    [.afk], any whitespace (none included), a one-line message that
    neither starts nor ends with whitespace and, when that message is not
    empty, possibly a line feed and further lines, sets off
    [start_afk_handler] alone, and, the store being writable, the message
    stored and confirmed is that one-line message, letter for letter. *)
Theorem afk_command_round_trip
    (now : clock) (m : new_message) (blanks message rest : string) (w : world) :
  out m = true ->
  (raw_text m = ".afk" +:+ blanks +:+ message
   \/ (message <> "" /\ raw_text m = ".afk" +:+ blanks +:+ message +:+ newline +:+ rest)) ->
  lstrip blanks = "" ->
  lstrip message = message ->
  rstrip message = message ->
  dot_star message = message ->
  db_writable w = true ->
  dispatch m = [AfkCommand message]
  /\ db (receive w (now, m)) = saved (activated_state now message)
  /\ outbox (receive w (now, m)) = outbox w ++ [Edit (activation_text message)].
Proof.
  intros Hout Htext Hblanks Hl Hr Hline Hw.
  assert (Hpattern : afk_pattern (raw_text m) = Some message).
  { unfold afk_pattern. destruct Htext as [-> | [Hne ->]].
    - rewrite match_literal_app. cbn [mbind option_bind].
      now rewrite lstrip_blanks, Hl, Hline.
    - rewrite match_literal_app. cbn [mbind option_bind].
      rewrite lstrip_blanks by exact Hblanks.
      destruct message as [| c message]; [now destruct Hne |].
      change (String c message +:+ newline +:+ rest)
        with (String c (message +:+ newline +:+ rest)).
      apply lstrip_fixed in Hl.
      rewrite (proj2 (lstrip_fixed c _) Hl).
      change (String c (message +:+ newline +:+ rest))
        with (String c message +:+ newline +:+ rest).
      now rewrite dot_star_first_line. }
  assert (Hdispatch : dispatch m = [AfkCommand message]).
  { unfold dispatch.
    now rewrite Hout, Hpattern, (patterns_exclusive _ _ Hpattern). }
  split; [exact Hdispatch |].
  unfold receive. cbn [fst snd]. rewrite Hdispatch. cbn [fmap list_fmap foldl].
  unfold step. cbn [fst snd handle]. rewrite start_afk_handler_cases, Hw.
  unfold strip. rewrite Hl, Hr. now split.
Qed.

End Reception_extras.

(** ** [main] *)

(** X20. [main] lets no [Exception] escape: whatever the client and the
    logger do, it returns, or it raises something that is no [Exception];
    and it returns when nothing of that kind is raised by the calls it
    makes. *)
Theorem main_contains_exceptions (config : Config) (lib : library) (login : bool) :
  (fst (main config lib login []) = inl tt
   \/ exists text, fst (main config lib login []) = inr (Not_an_Exception text))
  /\ ((forall text, start_raises lib <> Some (Not_an_Exception text)) ->
      (forall text, disconnect_raises lib <> Some (Not_an_Exception text)) ->
      (forall text, logger_add_raises lib <> Some (Not_an_Exception text)) ->
      (forall text, run_raises lib <> Some (Not_an_Exception text)) ->
      fst (main config lib login []) = inl tt).
Proof.
  destruct lib as [[[s|s]|] [[d|d]|] [[a|a]|] [[r|r]|]], login;
    (split; [cbn; eauto |]); intros Hs Hd Ha Hr; cbn;
    try reflexivity;
    try (now destruct (Hs s)); try (now destruct (Hd d));
    try (now destruct (Ha a)); try (now destruct (Hr r)).
Qed.

(** X21. What [main] does in each mode. The event loop is entered exactly
    when [--login] is not given and both [client.start()] and the set-up
    of the logger succeeded; [client.disconnect()] is called exactly when
    [--login] is given and [client.start()] succeeded; and with [--login]
    the logger is never reconfigured. *)
Theorem main_modes (config : Config) (lib : library) (login : bool) :
  (Client_run_until_disconnected ∈ snd (main config lib login [])
   <-> login = false /\ start_raises lib = None /\ logger_add_raises lib = None)
  /\ (Client_disconnect ∈ snd (main config lib login [])
      <-> login = true /\ start_raises lib = None)
  /\ (login = true ->
      (Logger_remove ∉ snd (main config lib login []))
      /\ forall format level, Logger_add format level ∉ snd (main config lib login [])).
Proof.
  assert (Hin : forall (c : call) (l : list call),
    (exists k, l !! k = Some c) -> c ∈ l)
    by (intros c l [k Hk]; now apply list_elem_of_lookup_2 in Hk).
  destruct lib as [[[s|s]|] [[d|d]|] [[a|a]|] [[r|r]|]], login; cbn;
    (split; [| split]);
    try (split; intros H;
         first [ now repeat split
               | solve [repeat (apply elem_of_cons in H as [H | H]; [discriminate |]);
                        now apply elem_of_nil in H]
               | solve [destruct H as (? & ? & ?); discriminate]
               | solve [destruct H as (? & ?); discriminate]
               | solve [apply Hin; first [ now exists 0%nat | now exists 1%nat
                                         | now exists 2%nat | now exists 3%nat
                                         | now exists 4%nat | now exists 5%nat
                                         | now exists 6%nat ]] ]);
    try discriminate;
    intros _; (split; [| intros format level]); intros H;
      repeat (apply elem_of_cons in H as [H | H]; [discriminate |]);
      now apply elem_of_nil in H.
Qed.

(** ** The further properties at sample inputs *)


Lemma busy_store_holds_busy :
  load_state (R := strict_runtime) noon (store_of (saved busy_since_nine) true)
  = (Return busy_since_nine, store_of (saved busy_since_nine) true).
Proof. vm_compute. reflexivity. Defined.



(** [.unafk] when the path of the state file is a directory: the error
    of [open] escapes the handler, and nothing is sent. *)
Lemma handler_failures_witness :
  handle (R := strict_runtime) noon UnafkCommand
    (store_of (Inaccessible IsADirectoryError) true)
  = (Raise IsADirectoryError, store_of (Inaccessible IsADirectoryError) true)
  /\ outbox (store_of (Inaccessible IsADirectoryError) true)
     = outbox (store_of (Inaccessible IsADirectoryError) true).
Proof.
  split; [reflexivity |].
  refine (proj1 (handler_failures (R := strict_runtime) noon UnafkCommand
                   (store_of (Inaccessible IsADirectoryError) true)
                   (store_of (Inaccessible IsADirectoryError) true)
                   IsADirectoryError _)).
  reflexivity.
Defined.


(** No state file yet: a private message and a message in a group. *)
Lemma inactive_ignores_messages_witness :
  db (foldl (receive (R := strict_runtime)) (store_of Absent true)
        [(noon, mk_new_message false "hello" (PeerUser 8) 8);
         (afternoon, mk_new_message false ".afk" (PeerChat 5) 9)]) = Absent
  /\ outbox (foldl (receive (R := strict_runtime)) (store_of Absent true)
               [(noon, mk_new_message false "hello" (PeerUser 8) 8);
                (afternoon, mk_new_message false ".afk" (PeerChat 5) 9)]) = [].
Proof.
  refine (inactive_ignores_messages (R := strict_runtime) noon
            [(noon, mk_new_message false "hello" (PeerUser 8) 8);
             (afternoon, mk_new_message false ".afk" (PeerChat 5) 9)]
            (store_of Absent true) (default_state noon) _ _ _).
  - reflexivity.
  - reflexivity.
  - repeat constructor.
Defined.

Lemma session_over_after_unafk_witness :
  db (step (R := strict_runtime) (store_of (saved busy_since_nine) true)
        (noon, UnafkCommand))
  = saved (set_is_afk false busy_since_nine)
  /\ outbox (step (R := strict_runtime)
               (step (R := strict_runtime) (store_of (saved busy_since_nine) true)
                  (noon, UnafkCommand))
               (afternoon, UnafkCommand))
     = outbox (step (R := strict_runtime) (store_of (saved busy_since_nine) true)
                 (noon, UnafkCommand))
       ++ [Edit "**AFK mode was not active**"].
Proof.
  pose proof (session_over_after_unafk (R := strict_runtime) noon afternoon
                (store_of (saved busy_since_nine) true)
                (store_of (saved busy_since_nine) true) busy_since_nine
                busy_store_holds_busy eq_refl eq_refl) as (Hdb & Hout & _).
  split; [exact Hdb | exact Hout].
Defined.


(** The command followed by three spaces. *)
Lemma activation_message_stripped_witness :
  exists message,
    db (step (R := strict_runtime) (store_of Absent true) (noon, AfkCommand "   "))
    = saved (activated_state noon message)
    /\ lstrip message = message
    /\ rstrip message = message
    /\ (lstrip "   " = "" ->
        message = ""
        /\ outbox (step (R := strict_runtime) (store_of Absent true)
                     (noon, AfkCommand "   "))
           = [] ++ [Edit "**AFK mode activated**"]).
Proof.
  refine (activation_message_stripped (R := strict_runtime) noon "   "
            (store_of Absent true) _).
  reflexivity.
Defined.

(** Correspondents 8 and 9, three hours and five hours seven minutes after
    nine. *)
Lemma distinct_senders_each_notified_witness :
  outbox (run (R := strict_runtime)
            [(noon, IncomingMessage (PeerUser 8) 8);
             (afternoon, IncomingMessage (PeerUser 9) 9)]
            (store_of (saved busy_since_nine) true))
  = [] ++ [Reply (PeerUser 8) (notification_text "busy" (mk_timedelta 0 10800 0));
           Reply (PeerUser 9) (notification_text "busy" (mk_timedelta 0 18420 0))]
  /\ stored (R := strict_runtime) afternoon
       (run (R := strict_runtime)
          [(noon, IncomingMessage (PeerUser 8) 8);
           (afternoon, IncomingMessage (PeerUser 9) 9)]
          (store_of (saved busy_since_nine) true))
     = Return (mk_BotState "busy" ([7] ++ [8; 9]) true (utc 2024 1 1 9 0 0)).
Proof.
  refine (distinct_senders_each_notified (R := strict_runtime) noon afternoon afternoon
            8 8 9 9 (store_of (saved busy_since_nine) true)
            (store_of (saved busy_since_nine) true) busy_since_nine
            (mk_timedelta 0 10800 0) (mk_timedelta 0 18420 0)
            _ busy_store_holds_busy _ _ _ _ _ _ _).
  - reflexivity.
  - reflexivity.
  - vm_compute. reflexivity.
  - vm_compute. intros H. inversion H; subst. inversion H2.
  - vm_compute. intros H. inversion H; subst. inversion H2.
  - discriminate.
  - vm_compute. reflexivity.
  - vm_compute. reflexivity.
Defined.

(** The command, three spaces, a message, and a second line. *)
Lemma afk_command_round_trip_witness :
  dispatch (mk_new_message true
              (".afk" +:+ "   " +:+ "busy now" +:+ newline +:+ "back at five")
              (PeerUser 8) 1)
  = [AfkCommand "busy now"]
  /\ db (receive (R := strict_runtime) (store_of Absent true)
           (noon, mk_new_message true
                    (".afk" +:+ "   " +:+ "busy now" +:+ newline +:+ "back at five")
                    (PeerUser 8) 1))
     = saved (activated_state noon "busy now")
  /\ outbox (receive (R := strict_runtime) (store_of Absent true)
               (noon, mk_new_message true
                        (".afk" +:+ "   " +:+ "busy now" +:+ newline +:+ "back at five")
                        (PeerUser 8) 1))
     = [] ++ [Edit (activation_text "busy now")].
Proof.
  refine (afk_command_round_trip (R := strict_runtime) noon
            (mk_new_message true
               (".afk" +:+ "   " +:+ "busy now" +:+ newline +:+ "back at five")
               (PeerUser 8) 1)
            "   " "busy now" "back at five" (store_of Absent true) _ _ _ _ _ _ _).
  - reflexivity.
  - right. split; [discriminate | reflexivity].
  - reflexivity.
  - reflexivity.
  - reflexivity.
  - reflexivity.
  - reflexivity.
Defined.
